(** * TeNPy build script ([setup.py]): a shallow embedding and its properties

    The script reads the process environment, probes the file system, may
    query [git], and hands a build description to Cython.  All of this is
    modelled with a small reader/state/writer/exception monad: the read-only
    surroundings of a run are a [World], the file system is threaded through
    as state, the external actions of a run are collected in order, and a
    Python exception is the [Raise] outcome. *)

From stdpp Require Import gmap strings list fin_maps pretty.
From Stdlib Require Import ZArith String Ascii.

Open Scope string_scope.
Open Scope Z_scope.

(** ** Python values and exceptions *)

(** The dynamically typed values the script stores in dictionaries or passes
    to [int]. *)
Inductive pyval : Type :=
| VNone
| VBool (b : bool)
| VInt (n : Z)
| VStr (s : string).

#[global] Instance pyval_eq_dec : EqDecision pyval.
Proof. solve_decision. Defined.

(** The exceptions that can escape the functions of the script. *)
Inductive exn : Type :=
| ValueError      (* int() on a string that is no integer literal *)
| TypeError       (* int() on None *)
| IndexError      (* list index out of range *)
| SubprocessError (* anything raised by subprocess.check_output or decode *)
| CythonError.    (* anything raised inside cythonize() *)

Inductive outcome (A : Type) : Type :=
| Ret (a : A)
| Raise (e : exn).
Arguments Ret {A} a.
Arguments Raise {A} e.

(** ** setuptools and Cython interface *)

(** [setuptools.Extension], with the keyword arguments the script passes. *)
Record Extension : Type := mkExtension {
  ext_name : string;
  ext_sources : list string;
  ext_include_dirs : list string;
  ext_libraries : list string;
  ext_library_dirs : list string;
  ext_define_macros : list (string * option string);
  ext_language : string
}.

(** One call [cythonize(extensions, compiler_directives=..., compile_time_env=...)]. *)
Record cythonize_call : Type := mkCall {
  call_extensions : list Extension;
  call_compiler_directives : gmap string pyval;
  call_compile_time_env : gmap string Z
}.

(** Entries of the file system, keyed by the path as handed to the operating
    system (relative paths are relative to the working directory). *)
Inductive fsnode : Type :=
| Dir
| File (content : string).

Abbreviation filesystem := (gmap string fsnode).

(** What [import Cython] provides when it succeeds: the [cythonize] function
    (it translates the sources, which writes files, and answers with the
    extension modules or raises) and the version.  The answer is taken as a
    function of the call and of the file system; what else Cython may
    consult, such as environment variables of its own, is not modelled. *)
Record Cython : Type := mkCython {
  cy_cythonize : cythonize_call -> filesystem -> option (list Extension) * filesystem;
  cy_version : string
}.

(** ** The world a run sees, and what a run leaves behind *)

Record World : Type := mkWorld {
  (* os.environ *)
  environ : gmap string string;
  (* the builtin int() on a str argument; None stands for ValueError *)
  int_of_str : string -> option Z;
  (* the result of the guarded import at the top of the script *)
  cython : option Cython;
  (* numpy.get_include() and numpy.version.full_version *)
  numpy_include : string;
  numpy_full_version : string;
  (* subprocess.check_output(argv, stderr=STDOUT).decode(); None stands for
     any exception (git missing, non-zero exit status, undecodable output) *)
  check_output : list string -> option string
}.

Inductive event : Type :=
| EvPrint (line : string)
| EvSubprocess (argv : list string)
| EvCythonize (call : cythonize_call).

(** A finished run: how it ended, the file system it leaves, and the
    external actions it performed, oldest first. *)
Record run (A : Type) : Type := mkRun {
  result : outcome A;
  fs_after : filesystem;
  events : list event
}.
Arguments mkRun {A} _ _ _.
Arguments result {A} _.
Arguments fs_after {A} _.
Arguments events {A} _.

(** ** The monad *)

Definition M (A : Type) : Type := World -> filesystem -> run A.

#[global] Instance M_ret : MRet M := fun A a _ fs => mkRun (Ret a) fs [].

(** The run [r] seen as the continuation of a part that performed [evs]. *)
Definition continue_with {A : Type} (evs : list event) (r : run A) : run A :=
  match r with
  | mkRun o fs' evs' => mkRun o fs' (evs ++ evs')
  end.

#[global] Instance M_bind : MBind M := fun A B f m w fs =>
  match m w fs with
  | mkRun (Ret a) fs' evs => continue_with evs (f a w fs')
  | mkRun (Raise e) fs' evs => mkRun (Raise e) fs' evs
  end.

Definition raise {A : Type} (e : exn) : M A := fun _ fs => mkRun (Raise e) fs [].

(** [try: body except: handler] with a bare [except], which catches
    everything. *)
Definition try_except {A : Type} (body handler : M A) : M A := fun w fs =>
  match body w fs with
  | mkRun (Ret a) fs' evs => mkRun (Ret a) fs' evs
  | mkRun (Raise _) fs' evs => continue_with evs (handler w fs')
  end.

Definition ask {A : Type} (f : World -> A) : M A := fun w fs => mkRun (Ret (f w)) fs [].

(** An external action that leaves the file system alone. *)
Definition emit {A : Type} (e : event) (o : outcome A) : M A := fun _ fs =>
  mkRun o fs [e].

(** ** Builtins and library functions used by the script *)

Definition print (line : string) : M unit := emit (EvPrint line) (Ret tt).

(** [os.getenv(key)], whose default is None. *)
Definition os_getenv (key : string) : M (option string) :=
  ask (fun w => environ w !! key).

(** [os.getenv(key, default)] with a string default. *)
Definition os_getenv_str (key dflt : string) : M string :=
  ask (fun w => default dflt (environ w !! key)).

(** [os.getenv(key, default)] with a default of any type: the value of the
    variable as a str when it is set, the default as it is otherwise. *)
Definition os_getenv_or (key : string) (dflt : pyval) : M pyval :=
  ask (fun w => from_option VStr dflt (environ w !! key)).

(** [os.path.exists(path)]. *)
Definition os_path_exists (path : string) : M bool := fun _ fs =>
  mkRun (Ret (bool_decide (is_Some (fs !! path)))) fs [].

Definition ends_with_slash (s : string) : bool :=
  match last (list_ascii_of_string s) with
  | Some c => bool_decide (c = "/"%char)
  | None => false
  end.

(** One step of [posixpath.join]: an absolute component replaces what was
    joined so far; otherwise it is appended, after a separator unless the
    path is empty or already ends in one. *)
Definition join2 (a b : string) : string :=
  if String.prefix "/" b then b
  else if bool_decide (a = "") || ends_with_slash a then a ++ b
  else a ++ "/" ++ b.

(** [os.path.join(a, *parts)]. *)
Definition os_path_join (a : string) (parts : list string) : string :=
  foldl join2 a parts.

(** The builtin [int(x)]. *)
Definition py_int (x : pyval) : M Z :=
  match x with
  | VInt n => mret n
  | VBool b => mret (Z.b2z b)
  | VStr s =>
      r ← ask (fun w => int_of_str w s);
      match r with
      | Some n => mret n
      | None => raise ValueError
      end
  | VNone => raise TypeError
  end.

(** [subprocess.check_output(argv, stderr=subprocess.STDOUT).decode()].  The
    script only runs the queries [git rev-parse] and [git describe], which
    read the repository: the child process is taken to leave the file
    system as it is. *)
Definition subprocess_check_output (argv : list string) : M string := fun w =>
  match check_output w argv with
  | Some out => emit (EvSubprocess argv) (Ret out) w
  | None => emit (EvSubprocess argv) (Raise SubprocessError) w
  end.

(** Python's white space among the characters below 256. *)
Definition is_space (c : ascii) : bool :=
  let n := N_of_ascii c in
  ((9 <=? n) && (n <=? 13) || (28 <=? n) && (n <=? 32)
   || (n =? 133) || (n =? 160))%N.

Fixpoint lstrip (s : string) : string :=
  match s with
  | String c s' => if is_space c then lstrip s' else s
  | EmptyString => EmptyString
  end.

(** [s.strip()]. *)
Definition str_strip (s : string) : string :=
  String.rev (lstrip (String.rev (lstrip s))).

(** [s.split(sep)] for a one-character separator; [cur] holds the field
    being read.  The result is never empty. *)
Fixpoint split_go (sep : ascii) (cur : string) (s : string) : list string :=
  match s with
  | EmptyString => [cur]
  | String c s' =>
      if bool_decide (c = sep) then cur :: split_go sep "" s'
      else split_go sep (cur ++ String c "") s'
  end.

Definition str_split (sep : ascii) (s : string) : list string :=
  split_go sep "" s.

(** [l[i]] for a non-negative literal index. *)
Definition list_index {A : Type} (l : list A) (i : nat) : M A :=
  match l !! i with
  | Some x => mret x
  | None => raise IndexError
  end.

(** [s[:n]]. *)
Definition str_take (n : nat) (s : string) : string := String.substring 0 n s.

(** [str(b)] and [str(n)]. *)
Definition str_of_bool (b : bool) : string := if b then "True" else "False".
Definition str_of_int (n : Z) : string := pretty n.

(** ** Module level of the script *)

Definition cythonize (w : World)
    : option (cythonize_call -> filesystem -> option (list Extension) * filesystem) :=
  cy_cythonize <$> cython w.

Definition cython_version (w : World) : string :=
  from_option cy_version "(not available)" (cython w).

Definition MAJOR : Z := 0.
Definition MINOR : Z := 10.
Definition MICRO : Z := 0.
Definition RELEASED : bool := false.
Definition VERSION : string :=
  str_of_int MAJOR ++ "." ++ str_of_int MINOR ++ "." ++ str_of_int MICRO.

(** ** Version stamping *)

Definition get_git_revision : M string :=
  git ← os_path_exists ".git";
  if negb git then mret "unknown"
  else
    try_except
      (out ← subprocess_check_output ["git"; "rev-parse"; "HEAD"];
       mret (str_strip out))
      (mret "unknown").

Definition get_git_description : M Z :=
  git ← os_path_exists ".git";
  if negb git then mret 0
  else
    r ← try_except
          (out ← subprocess_check_output ["git"; "describe"; "--tags"; "--long"];
           mret (Some (str_strip out)))
          (mret None);
    match r with
    | None => mret 0
    | Some descr =>
        field ← list_index (str_split "-" descr) 1;
        py_int (VStr field)
    end.

Definition get_version_info : M (string * string) :=
  let full_version := VERSION in
  git_rev ← get_git_revision;
  if negb RELEASED then
    n ← get_git_description;
    mret (full_version ++ ".dev" ++ str_of_int n ++ "+" ++ str_take 7 git_rev, git_rev)
  else mret (full_version, git_rev).

Definition version_py_content
    (version : string) (released : bool)
    (full_version git_rev numpy_ver cython_ver : string) : string :=
  "# THIS FILE IS GENERATED FROM setup.py
# thus, it contains the version during compilation
# Copyright 2018-2023 TeNPy Developers, GNU GPLv3
version = '" ++ version ++ "'
short_version = 'v' + version
released = " ++ str_of_bool released ++ "
full_version = '" ++ full_version ++ "'
git_revision = '" ++ git_rev ++ "'
numpy_version = '" ++ numpy_ver ++ "'
cython_version = '" ++ cython_ver ++ "'
".

(** The function binds the formatted text to a local name and ends there:
    it returns None. *)
Definition write_underscore_version_py (filename : string) : M unit :=
  '(full_version, git_rev) ← get_version_info;
  numpy_ver ← ask numpy_full_version;
  cython_ver ← ask cython_version;
  let content :=
    version_py_content VERSION RELEASED full_version git_rev numpy_ver cython_ver in
  mret tt.

(** ** The Cython extension *)

(** Calling the imported [cythonize]: the call is recorded, and its answer
    or its exception is the outcome. *)
Definition apply_cythonize
    (f : cythonize_call -> filesystem -> option (list Extension) * filesystem)
    (call : cythonize_call) : M (list Extension) := fun _ fs =>
  match f call fs with
  | (Some ext_modules, fs') => mkRun (Ret ext_modules) fs' [EvCythonize call]
  | (None, fs') => mkRun (Raise CythonError) fs' [EvCythonize call]
  end.

Definition nonempty (s : string) : bool := negb (bool_decide (s = "")).

Definition setup_cython_extension : M (list Extension) :=
  cy ← ask cythonize;
  match cy with
  | None =>
      print "Could not load cython. tenpy will not be compiled.";;
      mret []
  | Some cythonize_fn =>
      np_inc ← ask numpy_include;
      let include_dirs : list string := [np_inc] in
      let libs : list string := [] in
      let lib_dirs : list string := [] in
      let macros : list (string * option string) := [] in
      let cython_macros : gmap string Z := ∅ in
      let comp_direct : gmap string pyval :=
        <["embedsignature" := VBool true]> (<["language_level" := VInt 3]> ∅) in
      opt ← os_getenv_or "TENPY_OPTIMIZE" (VInt 1);
      TENPY_OPTIMIZE ← py_int opt;
      let comp_direct :=
        if 1 <? TENPY_OPTIMIZE
        then <["boundscheck" := VBool false]>
               (<["initializedcheck" := VBool false]> comp_direct)
        else comp_direct in
      let comp_direct :=
        if TENPY_OPTIMIZE <? 1
        then <["linetrace" := VBool true]> (<["profile" := VBool true]> comp_direct)
        else comp_direct in
      let HAVE_MKL := 0 in
      mkl_home ← os_getenv_str "MKL_HOME" "";
      mklroot ← os_getenv_str "MKLROOT" mkl_home;
      MKL_DIR ← os_getenv_str "MKL_DIR" mklroot;
      let '(include_dirs, lib_dirs, HAVE_MKL) :=
        if nonempty MKL_DIR
        then ((include_dirs ++ [os_path_join MKL_DIR ["include"]])%list,
              (lib_dirs ++ [os_path_join MKL_DIR ["lib"; "intel64"]])%list,
              1)
        else (include_dirs, lib_dirs, HAVE_MKL) in
      CONDA_PREFIX ← os_getenv "CONDA_PREFIX";
      '(include_dirs, lib_dirs, HAVE_MKL) ←
        match CONDA_PREFIX with
        | Some prefix =>
            if nonempty prefix then
              let include_dirs :=
                (include_dirs ++ [os_path_join prefix ["include"]])%list in
              let lib_dirs := (lib_dirs ++ [os_path_join prefix ["lib"]])%list in
              if HAVE_MKL =? 0 then
                found ← os_path_exists (os_path_join prefix ["include"; "mkl.h"]);
                mret (include_dirs, lib_dirs, Z.b2z found)
              else mret (include_dirs, lib_dirs, HAVE_MKL)
            else mret (include_dirs, lib_dirs, HAVE_MKL)
        | None => mret (include_dirs, lib_dirs, HAVE_MKL)
        end;
      ovr ← os_getenv_or "HAVE_MKL" (VInt HAVE_MKL);
      HAVE_MKL ← py_int ovr;
      print ("compile with HAVE_MKL = " ++ str_of_int HAVE_MKL);;
      let cython_macros := <["HAVE_MKL" := HAVE_MKL]> cython_macros in
      '(libs, macros, cython_macros) ←
        (if negb (HAVE_MKL =? 0) then
           let libs := (libs ++ ["mkl_rt"; "pthread"; "iomp5"])%list in
           layer ← os_getenv_str "MKL_INTERFACE_LAYER" "LP64";
           if String.prefix "ILP64" layer then
             print "using MKL interface layer ILP64 with 64-bit indices";;
             mret (libs, (macros ++ [("MKL_ILP64", None)])%list,
                   <["MKL_INTERFACE_LAYER" := 1]> cython_macros)
           else
             print "using default MKL interface layer";;
             mret (libs, macros, <["MKL_INTERFACE_LAYER" := 0]> cython_macros)
         else mret (libs, macros, cython_macros));
      let extensions :=
        [ {| ext_name := "*";
             ext_sources := ["tenpy/linalg/*.pyx"];
             ext_include_dirs := include_dirs;
             ext_libraries := libs;
             ext_library_dirs := lib_dirs;
             ext_define_macros := macros;
             ext_language := "c++" |} ] in
      let call :=
        {| call_extensions := extensions;
           call_compiler_directives := comp_direct;
           call_compile_time_env := cython_macros |} in
      apply_cythonize cythonize_fn call
  end.

(** ** A concrete reading of integer literals, for runs on concrete worlds *)

(** The builtin [int] is a field of the world, and every general theorem
    holds for whatever it does.  The reading below only fills that field in
    the example worlds: it covers plain decimal literals and makes no
    attempt at the rest of what [int] accepts or refuses (digits outside
    ASCII, the limit on the number of digits). *)

Definition digit_value (c : ascii) : option Z :=
  let n := N_of_ascii c in
  if ((48 <=? n) && (n <=? 57))%N then Some (Z.of_N n - 48) else None.

(** Digits, where single underscores may separate digits; [acc] is the value
    read so far and [prev_digit] tells whether the last character was a
    digit. *)
Fixpoint digits_go (acc : Z) (prev_digit : bool) (s : string) : option Z :=
  match s with
  | EmptyString => if prev_digit then Some acc else None
  | String c s' =>
      match digit_value c with
      | Some d => digits_go (10 * acc + d) true s'
      | None =>
          if bool_decide (c = "_"%char) && prev_digit
          then digits_go acc false s'
          else None
      end
  end.

(** Surrounding white space, an optional sign, then digits. *)
Definition decimal_int_of_str (s : string) : option Z :=
  match str_strip s with
  | String "-" d => Z.opp <$> digits_go 0 false d
  | String "+" d => digits_go 0 false d
  | d => digits_go 0 false d
  end.

(** * Views of a run *)

(** ** Observing a run *)

Definition cythonize_calls (evs : list event) : list cythonize_call :=
  omap (fun e => match e with EvCythonize c => Some c | _ => None end) evs.

(** The call that [setup_cython_extension] makes to [cythonize], when it
    gets that far. *)
Definition cythonize_request (w : World) (fs : filesystem) : option cythonize_call :=
  head (cythonize_calls (events (setup_cython_extension w fs))).

(** ** What a run reads, as functions of the world *)

(** These restate, as plain functions, what [setup_cython_extension] reads
    and computes on its way to [cythonize]; [setup_cython_extension_run]
    below proves that the embedding of the source computes exactly this. *)

(** [int(os.getenv(key, dflt))] for an integer default; None where [int]
    raises. *)
Definition env_int (w : World) (key : string) (dflt : Z) : option Z :=
  match environ w !! key with
  | Some s => int_of_str w s
  | None => Some dflt
  end.

Definition optimize_level (w : World) : option Z := env_int w "TENPY_OPTIMIZE" 1.

Definition mkl_dir (w : World) : string :=
  default (default (default "" (environ w !! "MKL_HOME")) (environ w !! "MKLROOT"))
          (environ w !! "MKL_DIR").

(** The value of CONDA_PREFIX when it is set and not empty. *)
Definition conda_prefix (w : World) : option string :=
  match environ w !! "CONDA_PREFIX" with
  | Some p => if nonempty p then Some p else None
  | None => None
  end.

(** HAVE_MKL as found by looking around, before the override. *)
Definition detected_mkl (w : World) (fs : filesystem) : Z :=
  if nonempty (mkl_dir w) then 1
  else match conda_prefix w with
       | Some p => Z.b2z (bool_decide (is_Some (fs !! os_path_join p ["include"; "mkl.h"])))
       | None => 0
       end.

(** HAVE_MKL after the override; None where [int] raises. *)
Definition have_mkl (w : World) (fs : filesystem) : option Z :=
  env_int w "HAVE_MKL" (detected_mkl w fs).

(** A variable that is unset or holds something [int] accepts. *)
Definition int_readable (w : World) (key : string) : Prop :=
  match environ w !! key with
  | Some s => is_Some (int_of_str w s)
  | None => True
  end.

Definition directives_for (n : Z) : gmap string pyval :=
  let base : gmap string pyval :=
    <["embedsignature" := VBool true]> (<["language_level" := VInt 3]> ∅) in
  let unchecked :=
    if 1 <? n
    then <["boundscheck" := VBool false]> (<["initializedcheck" := VBool false]> base)
    else base in
  if n <? 1
  then <["linetrace" := VBool true]> (<["profile" := VBool true]> unchecked)
  else unchecked.

Definition search_dirs (w : World) (mkl_sub conda_sub : list string) : list string :=
  ((if nonempty (mkl_dir w) then [os_path_join (mkl_dir w) mkl_sub] else []) ++
   match conda_prefix w with
   | Some p => [os_path_join p conda_sub]
   | None => []
   end)%list.

Definition ilp64 (w : World) : bool :=
  String.prefix "ILP64" (default "LP64" (environ w !! "MKL_INTERFACE_LAYER")).

Definition extension_for (w : World) (h : Z) : Extension :=
  {| ext_name := "*";
     ext_sources := ["tenpy/linalg/*.pyx"];
     ext_include_dirs := numpy_include w :: search_dirs w ["include"] ["include"];
     ext_libraries := if h =? 0 then [] else ["mkl_rt"; "pthread"; "iomp5"];
     ext_library_dirs := search_dirs w ["lib"; "intel64"] ["lib"];
     ext_define_macros :=
       if negb (h =? 0) && ilp64 w then [("MKL_ILP64", None)] else [];
     ext_language := "c++" |}.

Definition compile_time_env_for (w : World) (h : Z) : gmap string Z :=
  if h =? 0 then <["HAVE_MKL" := h]> ∅
  else <["MKL_INTERFACE_LAYER" := Z.b2z (ilp64 w)]> (<["HAVE_MKL" := h]> ∅).

Definition request_for (w : World) (n h : Z) : cythonize_call :=
  {| call_extensions := [extension_for w h];
     call_compiler_directives := directives_for n;
     call_compile_time_env := compile_time_env_for w h |}.

(** What the run prints before it calls [cythonize]. *)
Definition mkl_report (w : World) (h : Z) : list event :=
  EvPrint ("compile with HAVE_MKL = " ++ str_of_int h) ::
  (if h =? 0 then []
   else if ilp64 w
        then [EvPrint "using MKL interface layer ILP64 with 64-bit indices"]
        else [EvPrint "using default MKL interface layer"]).

(** ** Comparing runs *)

(** The world [w] with the variable [key] set to a value, or unset. *)
Definition with_environ (key : string) (v : option string) (w : World) : World :=
  {| environ :=
       match v with
       | Some s => <[key := s]> (environ w)
       | None => delete key (environ w)
       end;
     int_of_str := int_of_str w;
     cython := cython w;
     numpy_include := numpy_include w;
     numpy_full_version := numpy_full_version w;
     check_output := check_output w |}.

(** An event with the compiler directives of a [cythonize] call blanked. *)
Definition hide_directives (e : event) : event :=
  match e with
  | EvCythonize c =>
      EvCythonize {| call_extensions := call_extensions c;
                     call_compiler_directives := ∅;
                     call_compile_time_env := call_compile_time_env c |}
  | _ => e
  end.

(** Two calls that describe the same build: the same extensions (sources,
    include directories, libraries, library directories, C macros, language)
    and the same Cython compile-time macros. *)
Definition same_build (c1 c2 : cythonize_call) : Prop :=
  call_extensions c1 = call_extensions c2 ∧
  call_compile_time_env c1 = call_compile_time_env c2.

(** The directives that depend on the optimization level. *)
Definition level_directives : list string :=
  ["boundscheck"; "initializedcheck"; "profile"; "linetrace"].

(** ** Conditions on the surroundings, for the MKL detection *)

(** The value of the first variable of [keys] that is set. *)
Fixpoint first_set (env : gmap string string) (keys : list string) : option string :=
  match keys with
  | [] => None
  | k :: ks =>
      match env !! k with
      | Some v => Some v
      | None => first_set env ks
      end
  end.

Definition mkl_variables : list string := ["MKL_DIR"; "MKLROOT"; "MKL_HOME"].

(** Some MKL variable is set to a non-empty value. *)
Definition some_mkl_variable_given (w : World) : Prop :=
  ∃ k d, k ∈ mkl_variables ∧ environ w !! k = Some d ∧ d ≠ "".

(** The MKL variable that takes precedence holds a non-empty value. *)
Definition leading_mkl_variable_given (w : World) : Prop :=
  ∃ d, first_set (environ w) mkl_variables = Some d ∧ d ≠ "".

(** CONDA_PREFIX is set, not empty, and [mkl.h] exists in its [include]. *)
Definition conda_has_mkl_header (w : World) (fs : filesystem) : Prop :=
  ∃ p, environ w !! "CONDA_PREFIX" = Some p ∧ p ≠ "" ∧
       is_Some (fs !! os_path_join p ["include"; "mkl.h"]).

(** ** Events of the version stamping *)

Definition is_git_query (e : event) : Prop :=
  e = EvSubprocess ["git"; "rev-parse"; "HEAD"] ∨
  e = EvSubprocess ["git"; "describe"; "--tags"; "--long"].

(** A computation that leaves the file system as it found it and performs
    only events that satisfy [P]. *)
Definition quiet {A : Type} (P : event -> Prop) (m : M A) : Prop :=
  ∀ w fs, fs_after (m w fs) = fs ∧ Forall P (events (m w fs)).

(** * Concrete surroundings *)

(** A Cython whose [cythonize] writes one translated source and answers with
    the extensions it was given. *)
Definition cython_3 : Cython :=
  {| cy_cythonize := fun call fs =>
       (Some (call_extensions call), <["tenpy/linalg/_npc_helper.cpp" := File ""]> fs);
     cy_version := "3.0.10" |}.

Definition git_answers (argv : list string) : option string :=
  if bool_decide (argv = ["git"; "rev-parse"; "HEAD"])
  then Some "0123456789abcdef0123456789abcdef01234567
"
  else if bool_decide (argv = ["git"; "describe"; "--tags"; "--long"])
  then Some "v0.9.0-12-g0123456
"
  else None.

Definition world_of (env : gmap string string) (cy : option Cython) : World :=
  {| environ := env;
     int_of_str := decimal_int_of_str;
     cython := cy;
     numpy_include := "/usr/lib/python3/site-packages/numpy/core/include";
     numpy_full_version := "1.26.4";
     check_output := git_answers |}.

Definition w_plain : World := world_of ∅ (Some cython_3).
Definition w_no_cython : World := world_of ∅ None.
Definition w_level (s : string) : World :=
  world_of {[ "TENPY_OPTIMIZE" := s ]} (Some cython_3).

(** MKL_DIR is set but empty, and MKLROOT names an installation. *)
Definition w_shadowed : World :=
  world_of {[ "MKL_DIR" := ""; "MKLROOT" := "/opt/intel/mkl" ]} (Some cython_3).

Definition w_mklroot : World :=
  world_of {[ "MKLROOT" := "/opt/intel/mkl" ]} (Some cython_3).

Definition w_override : World :=
  world_of {[ "MKLROOT" := "/opt/intel/mkl"; "HAVE_MKL" := "0" ]} (Some cython_3).

Definition fs_checkout : filesystem := {[ ".git" := Dir ]}.

(** * Further views and surroundings *)

(** ** The git queries *)

Definition git_rev_parse : list string := ["git"; "rev-parse"; "HEAD"].
Definition git_describe : list string := ["git"; "describe"; "--tags"; "--long"].

(** Whether the character [c] occurs in [s]. *)
Fixpoint has_char (c : ascii) (s : string) : bool :=
  match s with
  | EmptyString => false
  | String c' s' => bool_decide (c' = c) || has_char c s'
  end.

(** ** Events of the build *)

Definition is_print (e : event) : Prop := ∃ line, e = EvPrint line.

(** The environment variables that [setup_cython_extension] asks for. *)
Definition setup_variables : list string :=
  ["TENPY_OPTIMIZE"; "MKL_HOME"; "MKLROOT"; "MKL_DIR"; "CONDA_PREFIX"; "HAVE_MKL";
   "MKL_INTERFACE_LAYER"].

(** The directory the MKL variables name: the value of the first one that is
    set, the empty string when none is. *)
Definition mkl_root (w : World) : string :=
  default "" (first_set (environ w) mkl_variables).

(** ** More concrete surroundings *)

(** A checkout where git cannot be run. *)
Definition w_git_missing : World :=
  {| environ := ∅;
     int_of_str := decimal_int_of_str;
     cython := Some cython_3;
     numpy_include := "/usr/lib/python3/site-packages/numpy/core/include";
     numpy_full_version := "1.26.4";
     check_output := fun _ => None |}.

(** A checkout whose only tag has a hyphen in its name. *)
Definition w_hyphen_tag : World :=
  {| environ := ∅;
     int_of_str := decimal_int_of_str;
     cython := Some cython_3;
     numpy_include := "/usr/lib/python3/site-packages/numpy/core/include";
     numpy_full_version := "1.26.4";
     check_output := fun argv =>
       if bool_decide (argv = git_describe) then Some "v1.0-rc1-3-g0123456
"
       else Some "0123456789abcdef0123456789abcdef01234567
" |}.

(** A git whose description carries no hyphen at all. *)
Definition w_odd_describe : World :=
  {| environ := ∅;
     int_of_str := decimal_int_of_str;
     cython := Some cython_3;
     numpy_include := "/usr/lib/python3/site-packages/numpy/core/include";
     numpy_full_version := "1.26.4";
     check_output := fun _ => Some "0123456
" |}.

(** A Cython whose [cythonize] fails after writing a partial result. *)
Definition cython_failing : Cython :=
  {| cy_cythonize := fun call fs => (None, <["tenpy/linalg/_npc_helper.cpp" := File ""]> fs);
     cy_version := "3.0.10" |}.

Definition w_bad_have_mkl : World :=
  world_of {[ "HAVE_MKL" := "yes"; "MKLROOT" := "/opt/intel/mkl" ]} (Some cython_3).

Definition w_ilp64 : World :=
  world_of {[ "MKLROOT" := "/opt/intel/mkl"; "MKL_INTERFACE_LAYER" := "ILP64,GNU" ]}
           (Some cython_3).

Definition w_mkl_and_conda : World :=
  world_of {[ "MKL_DIR" := "/opt/intel/mkl"; "CONDA_PREFIX" := "/opt/conda/" ]}
           (Some cython_3).

Definition w_conda : World :=
  world_of {[ "CONDA_PREFIX" := "/opt/conda" ]} (Some cython_3).

Definition fs_conda_mkl : filesystem :=
  {[ "/opt/conda/include/mkl.h" := File "" ]}.

(** Whether [mkl.h] is found in the [include] directory of CONDA_PREFIX. *)
Definition conda_mkl_header (w : World) (fs : filesystem) : bool :=
  match environ w !! "CONDA_PREFIX" with
  | Some p => bool_decide (is_Some (fs !! os_path_join p ["include"; "mkl.h"]))
  | None => false
  end.

(** * Properties *)

(** ** Running the monad step by step *)

Lemma continue_with_nil {A} (r : run A) : continue_with [] r = r.
Proof. by destruct r. Qed.

Lemma continue_with_app {A} (evs evs' : list event) (r : run A) :
  continue_with evs (continue_with evs' r) = continue_with (evs ++ evs') r.
Proof. destruct r. cbn. by rewrite (assoc_L (++)). Qed.

Lemma bind_ret {A B} (a : A) (k : A -> M B) w fs : (x ← mret a; k x) w fs = k a w fs.
Proof. unfold mbind, M_bind, mret, M_ret. apply continue_with_nil. Qed.

Lemma bind_ask {A B} (f : World -> A) (k : A -> M B) w fs :
  (x ← ask f; k x) w fs = k (f w) w fs.
Proof. unfold mbind, M_bind, ask. apply continue_with_nil. Qed.

Lemma bind_exists {B} path (k : bool -> M B) w fs :
  (x ← os_path_exists path; k x) w fs = k (bool_decide (is_Some (fs !! path))) w fs.
Proof. unfold mbind, M_bind, os_path_exists. apply continue_with_nil. Qed.

Lemma bind_print {B} line (k : M B) w fs :
  (print line;; k) w fs = continue_with [EvPrint line] (k w fs).
Proof. reflexivity. Qed.

Lemma bind_raise {A B} e (k : A -> M B) w fs :
  (x ← raise e; k x) w fs = mkRun (Raise e) fs [].
Proof. reflexivity. Qed.

Lemma bind_assoc {A B C} (m : M A) (f : A -> M B) (g : B -> M C) w fs :
  (y ← (x ← m; f x); g y) w fs = (x ← m; y ← f x; g y) w fs.
Proof.
  unfold mbind, M_bind. destruct (m w fs) as [[a|e] fs1 evs1]; [|reflexivity].
  destruct (f a w fs1) as [[b|e] fs2 evs2]; cbn; [|reflexivity].
  by rewrite continue_with_app.
Qed.

Lemma bind_int_env {B} key d (k : Z -> M B) w fs :
  (v ← os_getenv_or key (VInt d); x ← py_int v; k x) w fs =
  match env_int w key d with
  | Some n => k n w fs
  | None => mkRun (Raise ValueError) fs []
  end.
Proof.
  unfold env_int, os_getenv_or. rewrite bind_ask.
  destruct (environ w !! key) as [s|]; cbn [from_option py_int].
  - unfold mbind at 1. unfold M_bind. rewrite bind_ask.
    destruct (int_of_str w s); [apply bind_ret | reflexivity].
  - apply bind_ret.
Qed.

(** ** The run of [setup_cython_extension], in closed form *)

Lemma setup_cython_extension_run (w : World) (fs : filesystem) (cy : Cython) :
  cython w = Some cy ->
  setup_cython_extension w fs =
  match optimize_level w with
  | None => mkRun (Raise ValueError) fs []
  | Some n =>
      match have_mkl w fs with
      | None => mkRun (Raise ValueError) fs []
      | Some h =>
          continue_with (mkl_report w h)
            (apply_cythonize (cy_cythonize cy) (request_for w n h) w fs)
      end
  end.
Proof.
  intros Hcy. unfold setup_cython_extension.
  rewrite bind_ask. unfold cythonize. rewrite Hcy. cbn [fmap option_fmap option_map].
  rewrite bind_ask. cbv zeta.
  rewrite bind_int_env. fold (optimize_level w).
  destruct (optimize_level w) as [n|]; [|reflexivity].
  unfold os_getenv_str, os_getenv. rewrite !bind_ask. fold (mkl_dir w).
  unfold have_mkl, detected_mkl.
  unfold mkl_report, request_for, extension_for, compile_time_env_for,
    search_dirs, conda_prefix.
  fold (directives_for n).
  destruct (nonempty (mkl_dir w)); cbn iota beta;
    rewrite bind_ask;
    (destruct (environ w !! "CONDA_PREFIX") as [p|]; [destruct (nonempty p)|]);
    cbn [Z.eqb]; rewrite ?bind_assoc, ?bind_exists, bind_ret; cbn iota beta;
    rewrite bind_int_env.
  all: match goal with
       | |- context [env_int ?w' "HAVE_MKL" ?d] =>
           destruct (env_int w' "HAVE_MKL" d) as [h|]; [|reflexivity]
       end.
  all: rewrite bind_print.
  all: destruct (h =? 0); cbn [negb andb];
    rewrite ?bind_assoc, ?bind_ask; fold (ilp64 w);
    [|destruct (ilp64 w); rewrite bind_assoc, bind_print]; rewrite bind_ret;
    cbn iota beta; rewrite ?continue_with_app.
  all: reflexivity.
Qed.

Lemma setup_cython_extension_no_cython (w : World) (fs : filesystem) :
  cython w = None ->
  setup_cython_extension w fs =
  mkRun (Ret []) fs [EvPrint "Could not load cython. tenpy will not be compiled."].
Proof.
  intros Hcy. unfold setup_cython_extension.
  rewrite bind_ask. unfold cythonize. by rewrite Hcy.
Qed.

Lemma cythonize_calls_report (w : World) (h : Z) : cythonize_calls (mkl_report w h) = [].
Proof. unfold mkl_report. by destruct (h =? 0), (ilp64 w). Qed.

Lemma events_apply_cythonize f call w fs :
  events (apply_cythonize f call w fs) = [EvCythonize call].
Proof. unfold apply_cythonize. by destruct (f call fs) as [[m|] fs']. Qed.

Lemma events_continue_with {A} evs (r : run A) :
  events (continue_with evs r) = (evs ++ events r)%list.
Proof. by destruct r. Qed.

Lemma setup_cython_extension_events (w : World) (fs : filesystem) (cy : Cython) (n h : Z) :
  cython w = Some cy ->
  optimize_level w = Some n ->
  have_mkl w fs = Some h ->
  events (setup_cython_extension w fs) =
  (mkl_report w h ++ [EvCythonize (request_for w n h)])%list.
Proof.
  intros Hcy Hn Hh. rewrite (setup_cython_extension_run w fs cy Hcy), Hn, Hh.
  by rewrite events_continue_with, events_apply_cythonize.
Qed.

Lemma cythonize_request_run (w : World) (fs : filesystem) (cy : Cython) (n h : Z) :
  cython w = Some cy ->
  optimize_level w = Some n ->
  have_mkl w fs = Some h ->
  cythonize_request w fs = Some (request_for w n h).
Proof.
  intros Hcy Hn Hh. unfold cythonize_request.
  rewrite (setup_cython_extension_events w fs cy n h Hcy Hn Hh).
  unfold cythonize_calls. rewrite omap_app. fold (cythonize_calls (mkl_report w h)).
  by rewrite cythonize_calls_report.
Qed.

Lemma have_mkl_readable (w : World) (fs : filesystem) :
  int_readable w "HAVE_MKL" -> is_Some (have_mkl w fs).
Proof.
  unfold int_readable, have_mkl, env_int.
  destruct (environ w !! "HAVE_MKL") as [s|]; eauto.
Qed.

(** ** Computations that leave the file system alone *)

Section Quiet.
Context {P : event -> Prop}.

Lemma quiet_ret {A} (a : A) : quiet P (mret a).
Proof. intros w fs. split; [reflexivity | constructor]. Qed.

Lemma quiet_ask {A} (f : World -> A) : quiet P (ask f).
Proof. intros w fs. split; [reflexivity | constructor]. Qed.

Lemma quiet_raise {A} e : quiet P (raise (A := A) e).
Proof. intros w fs. split; [reflexivity | constructor]. Qed.

Lemma quiet_exists path : quiet P (os_path_exists path).
Proof. intros w fs. split; [reflexivity | constructor]. Qed.

Lemma quiet_emit {A} e (o : outcome A) : P e -> quiet P (emit e o).
Proof. intros He w fs. split; [reflexivity | by repeat constructor]. Qed.

Lemma quiet_continue {A} evs (r : run A) fs :
  Forall P evs -> fs_after r = fs ∧ Forall P (events r) ->
  fs_after (continue_with evs r) = fs ∧ Forall P (events (continue_with evs r)).
Proof.
  destruct r as [o fs' evs']. cbn. intros Hevs [-> Hevs'].
  split; [reflexivity | by apply Forall_app].
Qed.

Lemma quiet_bind {A B} (m : M A) (k : A -> M B) :
  quiet P m -> (∀ a, quiet P (k a)) -> quiet P (x ← m; k x).
Proof.
  intros Hm Hk w fs. specialize (Hm w fs). unfold mbind, M_bind.
  destruct (m w fs) as [[a|e] fs' evs]; cbn in Hm; destruct Hm as [-> Hevs].
  - apply quiet_continue; [done | apply Hk].
  - by split.
Qed.

Lemma quiet_try_except {A} (body handler : M A) :
  quiet P body -> quiet P handler -> quiet P (try_except body handler).
Proof.
  intros Hb Hh w fs. specialize (Hb w fs). unfold try_except.
  destruct (body w fs) as [[a|e] fs' evs]; cbn in Hb; destruct Hb as [-> Hevs].
  - by split.
  - apply quiet_continue; [done | apply Hh].
Qed.

Lemma quiet_py_int x : quiet P (py_int x).
Proof.
  destruct x; cbn [py_int];
    auto using quiet_ret, quiet_raise.
  apply quiet_bind; [apply quiet_ask|].
  intros [n|]; auto using quiet_ret, quiet_raise.
Qed.

Lemma quiet_list_index {A} (l : list A) i : quiet P (list_index l i).
Proof. unfold list_index. destruct (l !! i); auto using quiet_ret, quiet_raise. Qed.

Lemma quiet_check_output argv :
  P (EvSubprocess argv) -> quiet P (subprocess_check_output argv).
Proof.
  intros He w fs. unfold subprocess_check_output.
  destruct (check_output w argv); by apply quiet_emit.
Qed.
End Quiet.

Create HintDb quiet.
#[local] Hint Resolve quiet_ret quiet_ask quiet_raise quiet_exists quiet_bind
  quiet_try_except quiet_py_int quiet_list_index quiet_check_output : quiet.

Lemma git_rev_parse_query : is_git_query (EvSubprocess ["git"; "rev-parse"; "HEAD"]).
Proof. by left. Qed.

Lemma git_describe_query :
  is_git_query (EvSubprocess ["git"; "describe"; "--tags"; "--long"]).
Proof. by right. Qed.

#[local] Hint Resolve git_rev_parse_query git_describe_query : quiet.

Lemma get_git_revision_quiet : quiet is_git_query get_git_revision.
Proof.
  unfold get_git_revision. apply quiet_bind; [auto with quiet|].
  intros []; cbn [negb]; auto 6 with quiet.
Qed.

Lemma get_git_description_quiet : quiet is_git_query get_git_description.
Proof.
  unfold get_git_description. apply quiet_bind; [auto with quiet|].
  intros []; cbn [negb]; [|auto with quiet].
  apply quiet_bind; [auto 6 with quiet|].
  intros [descr|]; auto with quiet.
Qed.

Lemma get_version_info_quiet : quiet is_git_query get_version_info.
Proof.
  unfold get_version_info. cbv zeta. apply quiet_bind; [apply get_git_revision_quiet|].
  intros git_rev. cbn [RELEASED negb].
  apply quiet_bind; [apply get_git_description_quiet | auto with quiet].
Qed.

Lemma write_underscore_version_py_quiet filename :
  quiet is_git_query (write_underscore_version_py filename).
Proof.
  unfold write_underscore_version_py.
  apply quiet_bind; [apply get_version_info_quiet|].
  intros [full_version git_rev]. auto 6 with quiet.
Qed.

(** ** Version stamping *)

(** C10: in a working directory without a [.git] entry, [get_git_revision]
    returns "unknown" and [get_git_description] returns 0; neither starts a
    subprocess (no event is performed) and neither raises. *)
Theorem C10_no_git_entry (w : World) (fs : filesystem) :
  fs !! ".git" = None ->
  get_git_revision w fs = mkRun (Ret "unknown") fs [] ∧
  get_git_description w fs = mkRun (Ret 0) fs [].
Proof.
  intros Hgit. unfold get_git_revision, get_git_description.
  rewrite !bind_exists, Hgit.
  split; reflexivity.
Qed.

Lemma C10_no_git_entry_witness :
  get_git_revision w_plain ∅ = mkRun (Ret "unknown") ∅ [] ∧
  get_git_description w_plain ∅ = mkRun (Ret 0) ∅ [].
Proof. apply (C10_no_git_entry w_plain ∅). reflexivity. Defined.

(** C9: [write_underscore_version_py] writes no file.  Whatever the file
    name, the world and the file system it is started in, and however it
    ends, the file system afterwards is the one before, the only external
    actions are the two git queries of [get_version_info], and the run does
    not depend on the file name: the formatted text is dropped. *)
Theorem C9_version_file_not_written (filename : string) (w : World) (fs : filesystem) :
  fs_after (write_underscore_version_py filename w fs) = fs ∧
  Forall is_git_query (events (write_underscore_version_py filename w fs)) ∧
  (∀ other, write_underscore_version_py other w fs =
            write_underscore_version_py filename w fs).
Proof.
  destruct (write_underscore_version_py_quiet filename w fs) as [Hfs Hev].
  split; [exact Hfs|]. split; [exact Hev|].
  intros other. reflexivity.
Qed.

Example write_underscore_version_py_checkout :
  write_underscore_version_py "tenpy/_version.py" w_plain fs_checkout =
  mkRun (Ret tt) fs_checkout
    [EvSubprocess ["git"; "rev-parse"; "HEAD"];
     EvSubprocess ["git"; "describe"; "--tags"; "--long"]].
Proof. vm_compute. reflexivity. Qed.

Example get_version_info_checkout :
  result (get_version_info w_plain fs_checkout) =
  Ret ("0.10.0.dev12+0123456", "0123456789abcdef0123456789abcdef01234567").
Proof. vm_compute. reflexivity. Qed.

(** ** Without Cython *)

(** C8: when Cython cannot be imported ([cythonize] is None),
    [setup_cython_extension] does not raise: it prints a notice and returns
    the empty list of extension modules, and it touches nothing else. *)
Theorem C8_no_cython_no_extensions (w : World) (fs : filesystem) :
  cython w = None ->
  cythonize w = None ∧
  setup_cython_extension w fs =
  mkRun (Ret []) fs [EvPrint "Could not load cython. tenpy will not be compiled."].
Proof.
  intros Hcy. split.
  - unfold cythonize. by rewrite Hcy.
  - by apply setup_cython_extension_no_cython.
Qed.

Lemma C8_no_cython_no_extensions_witness :
  cythonize w_no_cython = None ∧
  setup_cython_extension w_no_cython fs_checkout =
  mkRun (Ret []) fs_checkout
    [EvPrint "Could not load cython. tenpy will not be compiled."].
Proof. apply (C8_no_cython_no_extensions w_no_cython fs_checkout). reflexivity. Defined.

(** ** Compiler directives and the optimization level *)

Lemma directives_for_bounds (n : Z) :
  directives_for n !! "boundscheck" = (if 1 <? n then Some (VBool false) else None) ∧
  directives_for n !! "initializedcheck" = (if 1 <? n then Some (VBool false) else None).
Proof. unfold directives_for. by destruct (1 <? n), (n <? 1). Qed.

Lemma directives_for_profile (n : Z) :
  directives_for n !! "profile" = (if n <? 1 then Some (VBool true) else None) ∧
  directives_for n !! "linetrace" = (if n <? 1 then Some (VBool true) else None).
Proof. unfold directives_for. by destruct (1 <? n), (n <? 1). Qed.

Lemma directives_for_other (n m : Z) (k : string) :
  k ∉ level_directives -> directives_for n !! k = directives_for m !! k.
Proof.
  unfold level_directives. intros Hk.
  rewrite !not_elem_of_cons in Hk. destruct Hk as (? & ? & ? & ? & _).
  unfold directives_for. cbv zeta.
  destruct (1 <? n), (n <? 1), (1 <? m), (m <? 1);
    rewrite ?(lookup_insert_ne _ "linetrace"), ?(lookup_insert_ne _ "profile"),
      ?(lookup_insert_ne _ "boundscheck"), ?(lookup_insert_ne _ "initializedcheck")
      by congruence;
    reflexivity.
Qed.

(** C2: for the integer level [n] that [int(os.getenv("TENPY_OPTIMIZE", 1))]
    yields, the call to [cythonize] carries [boundscheck = False] and
    [initializedcheck = False] when [n >= 2], and carries neither directive
    (so that Cython's checked defaults apply) when [n <= 1]. *)
Theorem C2_unchecked_from_level_two (w : World) (fs : filesystem) (cy : Cython) (n : Z) :
  cython w = Some cy ->
  optimize_level w = Some n ->
  int_readable w "HAVE_MKL" ->
  ∃ call, cythonize_request w fs = Some call ∧
    (2 <= n ->
       call_compiler_directives call !! "boundscheck" = Some (VBool false) ∧
       call_compiler_directives call !! "initializedcheck" = Some (VBool false)) ∧
    (n <= 1 ->
       call_compiler_directives call !! "boundscheck" = None ∧
       call_compiler_directives call !! "initializedcheck" = None).
Proof.
  intros Hcy Hn Hmkl. destruct (have_mkl_readable w fs Hmkl) as [h Hh].
  exists (request_for w n h).
  split; [by apply (cythonize_request_run w fs cy)|].
  cbn [request_for call_compiler_directives].
  destruct (directives_for_bounds n) as [-> ->].
  split; intros Hle.
  - by replace (1 <? n) with true by lia.
  - by replace (1 <? n) with false by lia.
Qed.

Lemma C2_unchecked_from_level_two_witness :
  ∃ call, cythonize_request (w_level "2") fs_checkout = Some call ∧
    call_compiler_directives call !! "boundscheck" = Some (VBool false) ∧
    call_compiler_directives call !! "initializedcheck" = Some (VBool false).
Proof.
  destruct (C2_unchecked_from_level_two (w_level "2") fs_checkout cython_3 2)
    as (call & Hcall & Hfast & _).
  - reflexivity.
  - vm_compute. reflexivity.
  - vm_compute. exact I.
  - exists call. split; [exact Hcall | apply Hfast; lia].
Defined.

(** C5: for the integer level [n] read from TENPY_OPTIMIZE, the call to
    [cythonize] carries [profile = True] and [linetrace = True] when
    [n < 1], and carries neither directive when [n >= 1]. *)
Theorem C5_profiling_below_level_one (w : World) (fs : filesystem) (cy : Cython) (n : Z) :
  cython w = Some cy ->
  optimize_level w = Some n ->
  int_readable w "HAVE_MKL" ->
  ∃ call, cythonize_request w fs = Some call ∧
    (n < 1 ->
       call_compiler_directives call !! "profile" = Some (VBool true) ∧
       call_compiler_directives call !! "linetrace" = Some (VBool true)) ∧
    (1 <= n ->
       call_compiler_directives call !! "profile" = None ∧
       call_compiler_directives call !! "linetrace" = None).
Proof.
  intros Hcy Hn Hmkl. destruct (have_mkl_readable w fs Hmkl) as [h Hh].
  exists (request_for w n h).
  split; [by apply (cythonize_request_run w fs cy)|].
  cbn [request_for call_compiler_directives].
  destruct (directives_for_profile n) as [-> ->].
  split; intros Hle.
  - by replace (n <? 1) with true by lia.
  - by replace (n <? 1) with false by lia.
Qed.

Lemma C5_profiling_below_level_one_witness :
  ∃ call, cythonize_request (w_level "0") fs_checkout = Some call ∧
    call_compiler_directives call !! "profile" = Some (VBool true) ∧
    call_compiler_directives call !! "linetrace" = Some (VBool true).
Proof.
  destruct (C5_profiling_below_level_one (w_level "0") fs_checkout cython_3 0)
    as (call & Hcall & Hprof & _).
  - reflexivity.
  - vm_compute. reflexivity.
  - vm_compute. exact I.
  - exists call. split; [exact Hcall | apply Hprof; lia].
Defined.

(** C6: with TENPY_OPTIMIZE unset the level read is 1, and at level 1 (read
    by default or from the variable) the directives handed to [cythonize]
    are exactly [language_level = 3] and [embedsignature = True]: none of
    [boundscheck], [initializedcheck], [profile], [linetrace] is set. *)
Theorem C6_default_level_baseline (w : World) (fs : filesystem) (cy : Cython) :
  cython w = Some cy ->
  int_readable w "HAVE_MKL" ->
  environ w !! "TENPY_OPTIMIZE" = None ∨ optimize_level w = Some 1 ->
  optimize_level w = Some 1 ∧
  ∃ call, cythonize_request w fs = Some call ∧
    call_compiler_directives call =
      <["embedsignature" := VBool true]> (<["language_level" := VInt 3]> ∅) ∧
    Forall (fun k => call_compiler_directives call !! k = None) level_directives.
Proof.
  intros Hcy Hmkl Hlevel.
  assert (optimize_level w = Some 1) as Hn.
  { destruct Hlevel as [Hunset|Hone]; [|exact Hone].
    unfold optimize_level, env_int. by rewrite Hunset. }
  split; [exact Hn|].
  destruct (have_mkl_readable w fs Hmkl) as [h Hh].
  exists (request_for w 1 h).
  split; [by apply (cythonize_request_run w fs cy)|].
  split; [reflexivity|].
  cbn [request_for call_compiler_directives]. unfold level_directives.
  destruct (directives_for_bounds 1) as [Hb Hi].
  destruct (directives_for_profile 1) as [Hp Hl].
  repeat constructor; assumption.
Qed.

Lemma C6_default_level_baseline_witness :
  optimize_level w_plain = Some 1 ∧
  ∃ call, cythonize_request w_plain fs_checkout = Some call ∧
    call_compiler_directives call =
      <["embedsignature" := VBool true]> (<["language_level" := VInt 3]> ∅) ∧
    Forall (fun k => call_compiler_directives call !! k = None) level_directives.
Proof.
  apply (C6_default_level_baseline w_plain fs_checkout cython_3).
  - reflexivity.
  - vm_compute. exact I.
  - left. reflexivity.
Defined.

(** ** The optimization level does not reach the build description *)

Lemma environ_with_environ_ne key v w k :
  key ≠ k -> environ (with_environ key v w) !! k = environ w !! k.
Proof.
  intros Hne. destruct v; cbn; [by apply lookup_insert_ne | by apply lookup_delete_ne].
Qed.

Section OtherVariable.
Variables (w : World) (v : option string).
Let w' := with_environ "TENPY_OPTIMIZE" v w.

Lemma mkl_dir_level : mkl_dir w' = mkl_dir w.
Proof. unfold mkl_dir, w'. by rewrite !environ_with_environ_ne. Qed.

Lemma conda_prefix_level : conda_prefix w' = conda_prefix w.
Proof. unfold conda_prefix, w'. by rewrite !environ_with_environ_ne. Qed.

Lemma ilp64_level : ilp64 w' = ilp64 w.
Proof. unfold ilp64, w'. by rewrite !environ_with_environ_ne. Qed.

Lemma have_mkl_level fs : have_mkl w' fs = have_mkl w fs.
Proof.
  unfold have_mkl, detected_mkl, env_int.
  rewrite mkl_dir_level, conda_prefix_level.
  unfold w'. by rewrite !environ_with_environ_ne.
Qed.

Lemma extension_for_level h : extension_for w' h = extension_for w h.
Proof.
  unfold extension_for, search_dirs.
  by rewrite mkl_dir_level, conda_prefix_level, ilp64_level.
Qed.

Lemma compile_time_env_for_level h : compile_time_env_for w' h = compile_time_env_for w h.
Proof. unfold compile_time_env_for. by rewrite ilp64_level. Qed.

Lemma mkl_report_level h : mkl_report w' h = mkl_report w h.
Proof. unfold mkl_report. by rewrite ilp64_level. Qed.
End OtherVariable.

Lemma hide_directives_report (w : World) (h : Z) :
  hide_directives <$> mkl_report w h = mkl_report w h.
Proof. unfold mkl_report. by destruct (h =? 0), (ilp64 w). Qed.

(** The run at one value of TENPY_OPTIMIZE, with the directives blanked, in
    terms of the world without it. *)
Lemma setup_cython_extension_level (w : World) (fs : filesystem) (v : option string) (n : Z) :
  optimize_level (with_environ "TENPY_OPTIMIZE" v w) = Some n ->
  hide_directives <$> events (setup_cython_extension (with_environ "TENPY_OPTIMIZE" v w) fs) =
    match cython w, have_mkl w fs with
    | None, _ => [EvPrint "Could not load cython. tenpy will not be compiled."]
    | Some _, None => []
    | Some _, Some h =>
        (mkl_report w h ++
         [EvCythonize {| call_extensions := [extension_for w h];
                         call_compiler_directives := ∅;
                         call_compile_time_env := compile_time_env_for w h |}])%list
    end ∧
  cythonize_request (with_environ "TENPY_OPTIMIZE" v w) fs =
    match cython w, have_mkl w fs with
    | Some _, Some h =>
        Some {| call_extensions := [extension_for w h];
                call_compiler_directives := directives_for n;
                call_compile_time_env := compile_time_env_for w h |}
    | _, _ => None
    end.
Proof.
  intros Hn. set (w' := with_environ "TENPY_OPTIMIZE" v w) in *.
  assert (cython w' = cython w) as Hcy by reflexivity.
  pose proof (have_mkl_level w v fs) as Hh. fold w' in Hh.
  destruct (cython w) as [cy|] eqn:Hc.
  - destruct (have_mkl w fs) as [h|] eqn:Hm.
    + rewrite (cythonize_request_run w' fs cy n h Hcy Hn Hh).
      rewrite (setup_cython_extension_events w' fs cy n h Hcy Hn Hh).
      unfold request_for, w'.
      rewrite extension_for_level, compile_time_env_for_level, mkl_report_level.
      by rewrite fmap_app, hide_directives_report.
    + unfold cythonize_request.
      by rewrite (setup_cython_extension_run w' fs cy Hcy), Hn, Hh.
  - unfold cythonize_request.
    by rewrite (setup_cython_extension_no_cython w' fs Hcy).
Qed.

(** C1: take any world and file system and any two values of TENPY_OPTIMIZE
    (set or unset) that read as integers.  The two runs of
    [setup_cython_extension] perform the same external actions once the
    compiler directives are blanked: they print the same lines and either
    both hand [cythonize] the same extensions (sources, include and library
    directories, libraries, C macros) and the same compile-time macros, or
    neither calls it.  The directives themselves agree outside
    [boundscheck], [initializedcheck], [profile] and [linetrace]. *)
Theorem C1_level_reaches_directives_only
    (w : World) (fs : filesystem) (v1 v2 : option string) (n1 n2 : Z) :
  optimize_level (with_environ "TENPY_OPTIMIZE" v1 w) = Some n1 ->
  optimize_level (with_environ "TENPY_OPTIMIZE" v2 w) = Some n2 ->
  hide_directives <$> events (setup_cython_extension (with_environ "TENPY_OPTIMIZE" v1 w) fs) =
  hide_directives <$> events (setup_cython_extension (with_environ "TENPY_OPTIMIZE" v2 w) fs) ∧
  option_Forall2
    (fun c1 c2 =>
       same_build c1 c2 ∧
       ∀ k, k ∉ level_directives ->
            call_compiler_directives c1 !! k = call_compiler_directives c2 !! k)
    (cythonize_request (with_environ "TENPY_OPTIMIZE" v1 w) fs)
    (cythonize_request (with_environ "TENPY_OPTIMIZE" v2 w) fs).
Proof.
  intros H1 H2.
  destruct (setup_cython_extension_level w fs v1 n1 H1) as [-> ->].
  destruct (setup_cython_extension_level w fs v2 n2 H2) as [-> ->].
  split; [reflexivity|].
  destruct (cython w); [|constructor].
  destruct (have_mkl w fs); constructor.
  split; [by split|]. cbn. intros k Hk. by apply directives_for_other.
Qed.

Lemma C1_level_reaches_directives_only_witness :
  hide_directives <$>
    events (setup_cython_extension (with_environ "TENPY_OPTIMIZE" (Some "0") w_shadowed) fs_checkout) =
  hide_directives <$>
    events (setup_cython_extension (with_environ "TENPY_OPTIMIZE" (Some "2") w_shadowed) fs_checkout) ∧
  option_Forall2
    (fun c1 c2 =>
       same_build c1 c2 ∧
       ∀ k, k ∉ level_directives ->
            call_compiler_directives c1 !! k = call_compiler_directives c2 !! k)
    (cythonize_request (with_environ "TENPY_OPTIMIZE" (Some "0") w_shadowed) fs_checkout)
    (cythonize_request (with_environ "TENPY_OPTIMIZE" (Some "2") w_shadowed) fs_checkout).
Proof.
  apply (C1_level_reaches_directives_only w_shadowed fs_checkout (Some "0") (Some "2") 0 2).
  - vm_compute. reflexivity.
  - vm_compute. reflexivity.
Defined.

(** A value of TENPY_OPTIMIZE that is no integer ends the run at line 93,
    before anything is printed or built. *)
Example level_not_an_integer :
  setup_cython_extension (w_level "fast") fs_checkout =
  mkRun (Raise ValueError) fs_checkout [].
Proof. vm_compute. reflexivity. Qed.

(** At levels 0 and 2 both runs do reach [cythonize], and the directives
    they pass differ. *)
Example levels_0_and_2_differ_in_directives :
  ∃ c0 c2,
    cythonize_request (w_level "0") fs_checkout = Some c0 ∧
    cythonize_request (w_level "2") fs_checkout = Some c2 ∧
    call_compiler_directives c0 !! "boundscheck" = None ∧
    call_compiler_directives c2 !! "boundscheck" = Some (VBool false).
Proof. do 2 eexists. vm_compute. repeat split; reflexivity. Qed.

(** ** Detecting and linking MKL *)

Lemma nonempty_true (s : string) : nonempty s = true <-> s ≠ "".
Proof.
  unfold nonempty. rewrite negb_true_iff, bool_decide_eq_false. reflexivity.
Qed.

Lemma mkl_dir_first_set (w : World) :
  mkl_dir w = default "" (first_set (environ w) mkl_variables).
Proof.
  unfold mkl_dir, mkl_variables. cbn [first_set].
  by destruct (environ w !! "MKL_DIR"), (environ w !! "MKLROOT"), (environ w !! "MKL_HOME").
Qed.

Lemma leading_mkl_variable_nonempty (w : World) :
  leading_mkl_variable_given w <-> nonempty (mkl_dir w) = true.
Proof.
  rewrite nonempty_true, mkl_dir_first_set. unfold leading_mkl_variable_given.
  destruct (first_set (environ w) mkl_variables) as [d|]; cbn [default].
  - split; [by intros (d' & [= <-] & Hd) | intros Hd; by exists d].
  - split; [by intros (d' & [=] & _) | done].
Qed.

Lemma conda_has_mkl_header_prefix (w : World) (fs : filesystem) :
  conda_has_mkl_header w fs <->
  ∃ p, conda_prefix w = Some p ∧ is_Some (fs !! os_path_join p ["include"; "mkl.h"]).
Proof.
  unfold conda_has_mkl_header, conda_prefix. split.
  - intros (p & -> & Hp & Hfile). exists p.
    apply nonempty_true in Hp. by rewrite Hp.
  - intros (p & Hp & Hfile). destruct (environ w !! "CONDA_PREFIX") as [q|]; [|done].
    destruct (nonempty q) eqn:Hq; [|done]. injection Hp as ->.
    exists p. by rewrite <- nonempty_true.
Qed.

(** What the detection finds: 1 or 0, and 1 exactly in two situations. *)
Lemma detected_mkl_spec (w : World) (fs : filesystem) :
  (detected_mkl w fs = 1 ∧ (leading_mkl_variable_given w ∨ conda_has_mkl_header w fs)) ∨
  (detected_mkl w fs = 0 ∧ ¬ (leading_mkl_variable_given w ∨ conda_has_mkl_header w fs)).
Proof.
  rewrite leading_mkl_variable_nonempty, conda_has_mkl_header_prefix.
  unfold detected_mkl. destruct (nonempty (mkl_dir w)); [left; auto|].
  destruct (conda_prefix w) as [p|].
  - destruct (bool_decide (is_Some (fs !! os_path_join p ["include"; "mkl.h"]))) eqn:Hfile.
    + apply bool_decide_eq_true in Hfile. left. split; [done|]. right. by exists p.
    + apply bool_decide_eq_false in Hfile. right. split; [done|].
      intros [[=]|(q & [= <-] & Hq)]. done.
  - right. split; [done|]. by intros [[=]|(q & [=] & _)].
Qed.

Lemma compile_time_env_for_have_mkl (w : World) (h : Z) :
  compile_time_env_for w h !! "HAVE_MKL" = Some h.
Proof.
  unfold compile_time_env_for. destruct (h =? 0).
  - apply lookup_insert_eq.
  - rewrite lookup_insert_ne by done. apply lookup_insert_eq.
Qed.

(** C3, as the code has it: with Cython present and the integers readable,
    the run calls [cythonize] with one extension and a compile-time value
    HAVE_MKL such that
    - when the variable HAVE_MKL is unset, the value is 1 if the first of
      MKL_DIR, MKLROOT, MKL_HOME that is set (in this order) is non-empty, or
      CONDA_PREFIX is set non-empty and [mkl.h] exists in its [include]
      directory, and 0 otherwise;
    - when the variable HAVE_MKL is set, the value is the integer it holds;
    - [mkl_rt], [pthread] and [iomp5] are the libraries of the extension
      when the value is not 0, and there are no libraries when it is 0. *)
Theorem C3_mkl_detection_and_linking (w : World) (fs : filesystem) (cy : Cython) (n : Z) :
  cython w = Some cy ->
  optimize_level w = Some n ->
  int_readable w "HAVE_MKL" ->
  ∃ call ext h,
    cythonize_request w fs = Some call ∧
    call_extensions call = [ext] ∧
    call_compile_time_env call !! "HAVE_MKL" = Some h ∧
    (environ w !! "HAVE_MKL" = None ->
       (h = 1 ∧ (leading_mkl_variable_given w ∨ conda_has_mkl_header w fs)) ∨
       (h = 0 ∧ ¬ (leading_mkl_variable_given w ∨ conda_has_mkl_header w fs))) ∧
    (∀ s, environ w !! "HAVE_MKL" = Some s -> int_of_str w s = Some h) ∧
    (h ≠ 0 -> ext_libraries ext = ["mkl_rt"; "pthread"; "iomp5"]) ∧
    (h = 0 -> ext_libraries ext = []).
Proof.
  intros Hcy Hn Hmkl. destruct (have_mkl_readable w fs Hmkl) as [h Hh].
  exists (request_for w n h), (extension_for w h), h.
  split; [by apply (cythonize_request_run w fs cy)|].
  split; [reflexivity|].
  split; [apply compile_time_env_for_have_mkl|].
  unfold have_mkl, env_int in Hh.
  split; [|split; [|split]].
  - intros Hunset. rewrite Hunset in Hh. injection Hh as <-. apply detected_mkl_spec.
  - intros s Hs. by rewrite Hs in Hh.
  - intros Hnz. cbn. by replace (h =? 0) with false by lia.
  - intros ->. reflexivity.
Qed.

Lemma C3_mkl_detection_and_linking_witness :
  ∃ call ext h,
    cythonize_request w_mklroot fs_checkout = Some call ∧
    call_extensions call = [ext] ∧
    call_compile_time_env call !! "HAVE_MKL" = Some h ∧
    (environ w_mklroot !! "HAVE_MKL" = None ->
       (h = 1 ∧ (leading_mkl_variable_given w_mklroot ∨
                 conda_has_mkl_header w_mklroot fs_checkout)) ∨
       (h = 0 ∧ ¬ (leading_mkl_variable_given w_mklroot ∨
                   conda_has_mkl_header w_mklroot fs_checkout))) ∧
    (∀ s, environ w_mklroot !! "HAVE_MKL" = Some s -> int_of_str w_mklroot s = Some h) ∧
    (h ≠ 0 -> ext_libraries ext = ["mkl_rt"; "pthread"; "iomp5"]) ∧
    (h = 0 -> ext_libraries ext = []).
Proof.
  apply (C3_mkl_detection_and_linking w_mklroot fs_checkout cython_3 1).
  - reflexivity.
  - vm_compute. reflexivity.
  - vm_compute. exact I.
Defined.

(** C3 as stated fails: with MKL_DIR set to the empty string and MKLROOT
    naming an installation, one of the three variables is set non-empty and
    HAVE_MKL is not set, yet the run passes HAVE_MKL = 0 and links no
    library.  [os.getenv("MKL_DIR", ...)] answers with the empty value of
    MKL_DIR and never falls back to MKLROOT. *)
Lemma C3_counterexample :
  some_mkl_variable_given w_shadowed ∧
  environ w_shadowed !! "HAVE_MKL" = None ∧
  ∃ call ext,
    cythonize_request w_shadowed fs_checkout = Some call ∧
    call_extensions call = [ext] ∧
    call_compile_time_env call !! "HAVE_MKL" = Some 0 ∧
    ext_libraries ext = [].
Proof.
  split; [|split].
  - exists "MKLROOT", "/opt/intel/mkl". split; [|split].
    + unfold mkl_variables. set_solver.
    + vm_compute. reflexivity.
    + discriminate.
  - vm_compute. reflexivity.
  - do 2 eexists. vm_compute. repeat split; reflexivity.
Qed.

(** A set HAVE_MKL wins over what is found: here MKLROOT names an
    installation and HAVE_MKL is "0". *)
Example have_mkl_override :
  detected_mkl w_override fs_checkout = 1 ∧
  ∃ call ext,
    cythonize_request w_override fs_checkout = Some call ∧
    call_extensions call = [ext] ∧
    call_compile_time_env call !! "HAVE_MKL" = Some 0 ∧
    ext_libraries ext = [].
Proof. split; [by vm_compute|]. do 2 eexists. vm_compute. repeat split; reflexivity. Qed.

(** * Further properties of the script *)

(** ** Strings *)

Lemma append_cons (x : ascii) (a b : string) : String x a ++ b = String x (a ++ b).
Proof. reflexivity. Qed.

Lemma append_assoc (a b c : string) : (a ++ b) ++ c = a ++ (b ++ c).
Proof.
  induction a as [|x a IH]; [reflexivity|]. by rewrite !append_cons, IH.
Qed.

Lemma append_empty_r (a : string) : a ++ "" = a.
Proof. induction a as [|x a IH]; [reflexivity|]. by rewrite append_cons, IH. Qed.

Lemma split_go_no_sep (sep : ascii) (cur s : string) :
  has_char sep s = false -> split_go sep cur s = [cur ++ s].
Proof.
  revert cur. induction s as [|c s IH]; intros cur Hs; cbn [split_go].
  - by rewrite append_empty_r.
  - cbn [has_char] in Hs. apply orb_false_iff in Hs as [Hc Hs]. rewrite Hc.
    rewrite (IH _ Hs), append_assoc. reflexivity.
Qed.

Lemma split_go_sep (sep : ascii) (cur a rest : string) :
  has_char sep a = false ->
  split_go sep cur (a ++ String sep rest) = (cur ++ a) :: split_go sep "" rest.
Proof.
  revert cur. induction a as [|c a IH]; intros cur Ha.
  - change ("" ++ String sep rest) with (String sep rest). cbn [split_go].
    rewrite bool_decide_eq_true_2 by reflexivity. by rewrite append_empty_r.
  - rewrite append_cons. cbn [split_go].
    cbn [has_char] in Ha. apply orb_false_iff in Ha as [Hc Ha]. rewrite Hc.
    rewrite (IH _ Ha), append_assoc. reflexivity.
Qed.

(** The second field of [a-b-rest] is [b]. *)
Lemma str_split_second (a b rest : string) :
  has_char "-" a = false -> has_char "-" b = false ->
  str_split "-" (a ++ "-" ++ b ++ "-" ++ rest) !! 1%nat = Some b.
Proof.
  intros Ha Hb. unfold str_split.
  change ("-" ++ b ++ "-" ++ rest) with (String "-" (b ++ String "-" rest)).
  rewrite (split_go_sep "-" "" a _ Ha), (split_go_sep "-" "" b _ Hb). reflexivity.
Qed.

Lemma str_split_single (s : string) :
  has_char "-" s = false -> str_split "-" s !! 1%nat = None.
Proof. intros Hs. unfold str_split. by rewrite (split_go_no_sep _ _ _ Hs). Qed.

(** ** The git queries, in closed form *)

Lemma get_git_revision_run (w : World) (fs : filesystem) :
  get_git_revision w fs =
  if bool_decide (is_Some (fs !! ".git")) then
    match check_output w git_rev_parse with
    | Some out => mkRun (Ret (str_strip out)) fs [EvSubprocess git_rev_parse]
    | None => mkRun (Ret "unknown") fs [EvSubprocess git_rev_parse]
    end
  else mkRun (Ret "unknown") fs [].
Proof.
  unfold get_git_revision. rewrite bind_exists.
  destruct (bool_decide (is_Some (fs !! ".git"))); [|reflexivity].
  cbn [negb]. unfold try_except, mbind, M_bind, subprocess_check_output, git_rev_parse.
  by destruct (check_output w _).
Qed.

Lemma get_git_description_run (w : World) (fs : filesystem) :
  get_git_description w fs =
  if bool_decide (is_Some (fs !! ".git")) then
    match check_output w git_describe with
    | None => mkRun (Ret 0) fs [EvSubprocess git_describe]
    | Some out =>
        match str_split "-" (str_strip out) !! 1%nat with
        | None => mkRun (Raise IndexError) fs [EvSubprocess git_describe]
        | Some field =>
            match int_of_str w field with
            | Some n => mkRun (Ret n) fs [EvSubprocess git_describe]
            | None => mkRun (Raise ValueError) fs [EvSubprocess git_describe]
            end
        end
    end
  else mkRun (Ret 0) fs [].
Proof.
  unfold get_git_description. rewrite bind_exists.
  destruct (bool_decide (is_Some (fs !! ".git"))); [|reflexivity].
  cbn [negb]. unfold mbind at 1. unfold M_bind at 1.
  unfold try_except, mbind at 1, M_bind at 1, subprocess_check_output, git_describe.
  destruct (check_output w _) as [out|]; [|reflexivity].
  cbn -[str_strip str_split]. unfold list_index.
  destruct (str_split "-" (str_strip out) !! 1%nat) as [field|]; [|reflexivity].
  rewrite bind_ret. cbn [py_int]. rewrite bind_ask.
  by destruct (int_of_str w field).
Qed.

(** ** Version stamping: what the git queries yield *)


(** X2: in a checkout where [git describe] fails (no git, no tag, non-zero
    exit), [get_git_description] returns 0 after the one attempt and does
    not raise. *)
Theorem get_git_description_git_fails (w : World) (fs : filesystem) :
  is_Some (fs !! ".git") ->
  check_output w git_describe = None ->
  get_git_description w fs = mkRun (Ret 0) fs [EvSubprocess git_describe].
Proof.
  intros Hgit Hfail. rewrite get_git_description_run, Hfail.
  by rewrite bool_decide_eq_true_2.
Qed.

Lemma get_git_description_git_fails_witness :
  get_git_description w_git_missing fs_checkout =
  mkRun (Ret 0) fs_checkout [EvSubprocess git_describe].
Proof.
  apply (get_git_description_git_fails w_git_missing fs_checkout).
  - vm_compute. eauto.
  - reflexivity.
Defined.

(** X3: when [git describe] answers [a-b-rest] with no hyphen inside [a] and
    [b], [get_git_description] is [int(b)]: it returns that integer, and
    raises ValueError when [b] is no integer, as happens for a tag whose own
    name contains a hyphen. *)
Theorem get_git_description_second_field
    (w : World) (fs : filesystem) (out a b rest : string) :
  is_Some (fs !! ".git") ->
  check_output w git_describe = Some out ->
  str_strip out = a ++ "-" ++ b ++ "-" ++ rest ->
  has_char "-" a = false ->
  has_char "-" b = false ->
  get_git_description w fs =
  match int_of_str w b with
  | Some n => mkRun (Ret n) fs [EvSubprocess git_describe]
  | None => mkRun (Raise ValueError) fs [EvSubprocess git_describe]
  end.
Proof.
  intros Hgit Hout Hform Ha Hb. rewrite get_git_description_run, Hout, Hform.
  rewrite bool_decide_eq_true_2 by done.
  by rewrite (str_split_second a b rest Ha Hb).
Qed.

Lemma get_git_description_second_field_witness :
  get_git_description w_plain fs_checkout =
  mkRun (Ret 12) fs_checkout [EvSubprocess git_describe].
Proof.
  apply (get_git_description_second_field w_plain fs_checkout
           "v0.9.0-12-g0123456
" "v0.9.0" "12" "g0123456").
  - vm_compute. eauto.
  - reflexivity.
  - vm_compute. reflexivity.
  - reflexivity.
  - reflexivity.
Defined.

(** The tag [v1.0-rc1], three commits back: the field read is [rc1]. *)
Example get_git_description_hyphen_in_tag :
  get_git_description w_hyphen_tag fs_checkout =
  mkRun (Raise ValueError) fs_checkout [EvSubprocess git_describe].
Proof. vm_compute. reflexivity. Qed.

(** X4: when [git describe] answers with a text that has no hyphen,
    [get_git_description] raises IndexError: the indexing stands outside the
    [try] and is not caught. *)
Theorem get_git_description_no_hyphen (w : World) (fs : filesystem) (out : string) :
  is_Some (fs !! ".git") ->
  check_output w git_describe = Some out ->
  has_char "-" (str_strip out) = false ->
  get_git_description w fs = mkRun (Raise IndexError) fs [EvSubprocess git_describe].
Proof.
  intros Hgit Hout Hno. rewrite get_git_description_run, Hout.
  rewrite bool_decide_eq_true_2 by done.
  by rewrite (str_split_single _ Hno).
Qed.

Lemma get_git_description_no_hyphen_witness :
  get_git_description w_odd_describe fs_checkout =
  mkRun (Raise IndexError) fs_checkout [EvSubprocess git_describe].
Proof.
  apply (get_git_description_no_hyphen w_odd_describe fs_checkout "0123456
").
  - vm_compute. eauto.
  - reflexivity.
  - vm_compute. reflexivity.
Defined.

(** ** Version stamping: the version string *)

Lemma get_version_info_run (w : World) (fs : filesystem) :
  ∃ rev evs,
    get_git_revision w fs = mkRun (Ret rev) fs evs ∧
    get_version_info w fs =
    match get_git_description w fs with
    | mkRun (Ret n) fs' evs' =>
        mkRun (Ret (VERSION ++ ".dev" ++ str_of_int n ++ "+" ++ str_take 7 rev, rev))
              fs' (evs ++ evs')
    | mkRun (Raise e) fs' evs' => mkRun (Raise e) fs' (evs ++ evs')
    end.
Proof.
  pose proof (get_git_revision_run w fs) as Hrev.
  assert (∃ rev evs, get_git_revision w fs = mkRun (Ret rev) fs evs) as (rev & evs & Hrun).
  { rewrite Hrev. destruct (bool_decide _); [destruct (check_output w _)|]; eauto. }
  exists rev, evs. split; [exact Hrun|].
  unfold get_version_info. cbv zeta. cbn [RELEASED negb].
  unfold mbind at 1. unfold M_bind at 1. rewrite Hrun.
  unfold mbind, M_bind, mret, M_ret.
  destruct (get_git_description w fs) as [[n|e] fs' evs']; cbn [continue_with];
    [|reflexivity].
  by rewrite (right_id_L [] (++)).
Qed.

(** X5: the version [get_version_info] returns is
    [VERSION.dev<n>+<first seven characters of the revision>], where [n] is
    what [get_git_description] returned and the revision is the one returned
    beside it. *)
Theorem get_version_info_format (w : World) (fs : filesystem) (full rev : string) :
  result (get_version_info w fs) = Ret (full, rev) ->
  ∃ n, result (get_git_description w fs) = Ret n ∧
       result (get_git_revision w fs) = Ret rev ∧
       full = "0.10.0.dev" ++ str_of_int n ++ "+" ++ str_take 7 rev.
Proof.
  destruct (get_version_info_run w fs) as (rev' & evs & Hrev & ->).
  rewrite Hrev.
  destruct (get_git_description w fs) as [[n|e] fs' evs']; cbn [result]; [|done].
  intros [= <- <-]. exists n. repeat split.
Qed.

Lemma get_version_info_format_witness :
  ∃ n, result (get_git_description w_plain fs_checkout) = Ret n ∧
       result (get_git_revision w_plain fs_checkout) =
         Ret "0123456789abcdef0123456789abcdef01234567" ∧
       "0.10.0.dev12+0123456" = "0.10.0.dev" ++ str_of_int n ++ "+" ++
         str_take 7 "0123456789abcdef0123456789abcdef01234567".
Proof.
  apply (get_version_info_format w_plain fs_checkout).
  vm_compute. reflexivity.
Defined.

(** X6: without a [.git] entry the version is [0.10.0.dev0+unknown], whatever
    the rest of the surroundings, and nothing external is done. *)
Theorem get_version_info_without_git (w : World) (fs : filesystem) :
  fs !! ".git" = None ->
  get_version_info w fs = mkRun (Ret ("0.10.0.dev0+unknown", "unknown")) fs [].
Proof.
  intros Hgit. destruct (get_version_info_run w fs) as (rev & evs & Hrev & ->).
  rewrite get_git_revision_run in Hrev. rewrite get_git_description_run.
  rewrite Hgit in *. rewrite bool_decide_eq_false_2 in * by (by intros [? [=]]).
  injection Hrev as <- <-. reflexivity.
Qed.

Lemma get_version_info_without_git_witness :
  get_version_info w_plain ∅ = mkRun (Ret ("0.10.0.dev0+unknown", "unknown")) ∅ [].
Proof. apply (get_version_info_without_git w_plain ∅). reflexivity. Defined.

(** X7: [write_underscore_version_py] can only raise IndexError or
    ValueError, and only in a checkout where [git describe] answered: a
    missing [.git], a missing git and a failing git never make it raise. *)
Theorem write_underscore_version_py_raises_only
    (filename : string) (w : World) (fs : filesystem) (e : exn) :
  result (write_underscore_version_py filename w fs) = Raise e ->
  (e = IndexError ∨ e = ValueError) ∧
  is_Some (fs !! ".git") ∧
  is_Some (check_output w git_describe).
Proof.
  unfold write_underscore_version_py. unfold mbind at 1. unfold M_bind at 1.
  destruct (get_version_info_run w fs) as (rev & evs & _ & ->).
  rewrite get_git_description_run.
  destruct (bool_decide (is_Some (fs !! ".git"))) eqn:Hgit.
  - apply bool_decide_eq_true in Hgit.
    destruct (check_output w git_describe) as [out|]; [|done].
    destruct (str_split "-" (str_strip out) !! 1%nat) as [field|].
    + destruct (int_of_str w field); cbn; [done|]. intros [= <-]. eauto.
    + cbn. intros [= <-]. eauto.
  - done.
Qed.

Lemma write_underscore_version_py_raises_only_witness :
  (IndexError = IndexError ∨ IndexError = ValueError) ∧
  is_Some (fs_checkout !! ".git") ∧
  is_Some (check_output w_odd_describe git_describe).
Proof.
  apply (write_underscore_version_py_raises_only "tenpy/_version.py" w_odd_describe fs_checkout).
  vm_compute. reflexivity.
Defined.

(** ** The build: every run, in closed form *)

Lemma setup_cython_extension_closed (w : World) (fs : filesystem) :
  setup_cython_extension w fs =
  match cython w with
  | None =>
      mkRun (Ret []) fs [EvPrint "Could not load cython. tenpy will not be compiled."]
  | Some cy =>
      match optimize_level w with
      | None => mkRun (Raise ValueError) fs []
      | Some n =>
          match have_mkl w fs with
          | None => mkRun (Raise ValueError) fs []
          | Some h =>
              continue_with (mkl_report w h)
                (apply_cythonize (cy_cythonize cy) (request_for w n h) w fs)
          end
      end
  end.
Proof.
  destruct (cython w) as [cy|] eqn:Hcy.
  - by apply setup_cython_extension_run.
  - by apply setup_cython_extension_no_cython.
Qed.

Lemma setup_cython_extension_events_closed (w : World) (fs : filesystem) :
  events (setup_cython_extension w fs) =
  match cython w with
  | None => [EvPrint "Could not load cython. tenpy will not be compiled."]
  | Some cy =>
      match optimize_level w, have_mkl w fs with
      | Some n, Some h => (mkl_report w h ++ [EvCythonize (request_for w n h)])%list
      | _, _ => []
      end
  end.
Proof.
  rewrite setup_cython_extension_closed.
  destruct (cython w) as [cy|]; [|reflexivity].
  destruct (optimize_level w) as [n|]; [|reflexivity].
  destruct (have_mkl w fs) as [h|]; [|reflexivity].
  by rewrite events_continue_with, events_apply_cythonize.
Qed.

Lemma mkl_report_prints (w : World) (h : Z) : Forall is_print (mkl_report w h).
Proof.
  unfold mkl_report.
  destruct (h =? 0); [|destruct (ilp64 w)]; repeat constructor; by eexists.
Qed.

(** ** The build: errors *)

(** X8: with Cython present, a TENPY_OPTIMIZE that [int] rejects ends
    [setup_cython_extension] with ValueError before it prints or builds
    anything. *)
Theorem setup_rejects_unreadable_level
    (w : World) (fs : filesystem) (cy : Cython) (s : string) :
  cython w = Some cy ->
  environ w !! "TENPY_OPTIMIZE" = Some s ->
  int_of_str w s = None ->
  setup_cython_extension w fs = mkRun (Raise ValueError) fs [].
Proof.
  intros Hcy Hs Hbad. rewrite setup_cython_extension_closed, Hcy.
  unfold optimize_level, env_int. by rewrite Hs, Hbad.
Qed.

Lemma setup_rejects_unreadable_level_witness :
  setup_cython_extension (w_level "fast") fs_checkout =
  mkRun (Raise ValueError) fs_checkout [].
Proof.
  apply (setup_rejects_unreadable_level (w_level "fast") fs_checkout cython_3 "fast").
  - reflexivity.
  - vm_compute. reflexivity.
  - vm_compute. reflexivity.
Defined.

(** X9: with Cython present and the level readable, a HAVE_MKL that [int]
    rejects ends [setup_cython_extension] with ValueError; the line
    "compile with HAVE_MKL = ..." is not printed and [cythonize] is not
    called. *)
Theorem setup_rejects_unreadable_have_mkl
    (w : World) (fs : filesystem) (cy : Cython) (n : Z) (s : string) :
  cython w = Some cy ->
  optimize_level w = Some n ->
  environ w !! "HAVE_MKL" = Some s ->
  int_of_str w s = None ->
  setup_cython_extension w fs = mkRun (Raise ValueError) fs [].
Proof.
  intros Hcy Hn Hs Hbad. rewrite setup_cython_extension_closed, Hcy, Hn.
  unfold have_mkl, env_int. by rewrite Hs, Hbad.
Qed.

Lemma setup_rejects_unreadable_have_mkl_witness :
  setup_cython_extension w_bad_have_mkl fs_checkout =
  mkRun (Raise ValueError) fs_checkout [].
Proof.
  apply (setup_rejects_unreadable_have_mkl w_bad_have_mkl fs_checkout cython_3 1 "yes").
  - reflexivity.
  - vm_compute. reflexivity.
  - vm_compute. reflexivity.
  - vm_compute. reflexivity.
Defined.

(** X10: when the run reaches [cythonize], what [setup_cython_extension]
    returns is what [cythonize] answers for the call and the file system at
    hand: its extension modules, or its exception; and the file system left
    behind is the one [cythonize] leaves. *)
Theorem setup_returns_cythonize_answer
    (w : World) (fs : filesystem) (cy : Cython) (n : Z) :
  cython w = Some cy ->
  optimize_level w = Some n ->
  int_readable w "HAVE_MKL" ->
  ∃ call,
    cythonize_request w fs = Some call ∧
    result (setup_cython_extension w fs) =
      match (cy_cythonize cy call fs).1 with
      | Some ext_modules => Ret ext_modules
      | None => Raise CythonError
      end ∧
    fs_after (setup_cython_extension w fs) = (cy_cythonize cy call fs).2.
Proof.
  intros Hcy Hn Hmkl. destruct (have_mkl_readable w fs Hmkl) as [h Hh].
  exists (request_for w n h).
  split; [by apply (cythonize_request_run w fs cy)|].
  rewrite setup_cython_extension_closed, Hcy, Hn, Hh. unfold apply_cythonize.
  by destruct (cy_cythonize cy (request_for w n h) fs) as [[m|] fs'].
Qed.

Lemma setup_returns_cythonize_answer_witness :
  ∃ call,
    cythonize_request (world_of ∅ (Some cython_failing)) fs_checkout = Some call ∧
    result (setup_cython_extension (world_of ∅ (Some cython_failing)) fs_checkout) =
      match (cy_cythonize cython_failing call fs_checkout).1 with
      | Some ext_modules => Ret ext_modules
      | None => Raise CythonError
      end ∧
    fs_after (setup_cython_extension (world_of ∅ (Some cython_failing)) fs_checkout) =
      (cy_cythonize cython_failing call fs_checkout).2.
Proof.
  apply (setup_returns_cythonize_answer
           (world_of ∅ (Some cython_failing)) fs_checkout cython_failing 1).
  - reflexivity.
  - vm_compute. reflexivity.
  - vm_compute. exact I.
Defined.

(** A failing [cythonize] surfaces as the exception of the run. *)
Example setup_cythonize_fails :
  result (setup_cython_extension (world_of ∅ (Some cython_failing)) fs_checkout) =
  Raise CythonError.
Proof. vm_compute. reflexivity. Qed.

(** X11: in every world and file system, the external actions of
    [setup_cython_extension] are some printed lines followed by at most one
    call to [cythonize]: it runs no subprocess, and nothing happens after
    [cythonize] has been called. *)
Theorem setup_prints_then_calls_once (w : World) (fs : filesystem) :
  ∃ (prints : list event) (calls : list cythonize_call),
    events (setup_cython_extension w fs) = (prints ++ (EvCythonize <$> calls))%list ∧
    Forall is_print prints ∧
    (List.length calls <= 1)%nat.
Proof.
  rewrite setup_cython_extension_events_closed.
  destruct (cython w) as [cy|].
  - destruct (optimize_level w) as [n|]; [destruct (have_mkl w fs) as [h|]|].
    + exists (mkl_report w h), [request_for w n h].
      split; [reflexivity|]. split; [apply mkl_report_prints | cbn; lia].
    + exists [], []. split; [reflexivity|]. split; [constructor | cbn; lia].
    + exists [], []. split; [reflexivity|]. split; [constructor | cbn; lia].
  - eexists [_], []. split; [reflexivity|].
    split; [repeat constructor; by eexists | cbn; lia].
Qed.

(** ** The build: interface layer and search directories *)

Lemma compile_time_env_for_layer (w : World) (h : Z) :
  compile_time_env_for w h !! "MKL_INTERFACE_LAYER" =
  if h =? 0 then None else Some (Z.b2z (ilp64 w)).
Proof.
  unfold compile_time_env_for. destruct (h =? 0).
  - by rewrite lookup_insert_ne.
  - apply lookup_insert_eq.
Qed.

(** X12: the interface layer.  With the final HAVE_MKL at 0 no C macro is
    defined and MKL_INTERFACE_LAYER is not among the compile-time macros.
    Otherwise, if the variable MKL_INTERFACE_LAYER (default "LP64") starts
    with "ILP64", the C macro MKL_ILP64 is defined and the compile-time
    MKL_INTERFACE_LAYER is 1; if not, no C macro is defined and it is 0. *)
Theorem setup_interface_layer (w : World) (fs : filesystem) (cy : Cython) (n : Z) :
  cython w = Some cy ->
  optimize_level w = Some n ->
  int_readable w "HAVE_MKL" ->
  ∃ call ext h,
    cythonize_request w fs = Some call ∧
    call_extensions call = [ext] ∧
    call_compile_time_env call !! "HAVE_MKL" = Some h ∧
    (h = 0 ->
       ext_define_macros ext = [] ∧
       call_compile_time_env call !! "MKL_INTERFACE_LAYER" = None) ∧
    (h ≠ 0 ->
       if String.prefix "ILP64" (default "LP64" (environ w !! "MKL_INTERFACE_LAYER"))
       then ext_define_macros ext = [("MKL_ILP64", None)] ∧
            call_compile_time_env call !! "MKL_INTERFACE_LAYER" = Some 1
       else ext_define_macros ext = [] ∧
            call_compile_time_env call !! "MKL_INTERFACE_LAYER" = Some 0).
Proof.
  intros Hcy Hn Hmkl. destruct (have_mkl_readable w fs Hmkl) as [h Hh].
  exists (request_for w n h), (extension_for w h), h.
  split; [by apply (cythonize_request_run w fs cy)|].
  split; [reflexivity|].
  split; [apply compile_time_env_for_have_mkl|].
  cbn [request_for call_compile_time_env extension_for ext_define_macros].
  rewrite compile_time_env_for_layer. fold (ilp64 w).
  split.
  - intros ->. by split.
  - intros Hnz. replace (h =? 0) with false by lia. cbn [negb andb].
    by destruct (ilp64 w).
Qed.

Lemma setup_interface_layer_witness :
  ∃ call ext h,
    cythonize_request w_ilp64 fs_checkout = Some call ∧
    call_extensions call = [ext] ∧
    call_compile_time_env call !! "HAVE_MKL" = Some h ∧
    (h = 0 ->
       ext_define_macros ext = [] ∧
       call_compile_time_env call !! "MKL_INTERFACE_LAYER" = None) ∧
    (h ≠ 0 ->
       if String.prefix "ILP64" (default "LP64" (environ w_ilp64 !! "MKL_INTERFACE_LAYER"))
       then ext_define_macros ext = [("MKL_ILP64", None)] ∧
            call_compile_time_env call !! "MKL_INTERFACE_LAYER" = Some 1
       else ext_define_macros ext = [] ∧
            call_compile_time_env call !! "MKL_INTERFACE_LAYER" = Some 0).
Proof.
  apply (setup_interface_layer w_ilp64 fs_checkout cython_3 1).
  - reflexivity.
  - vm_compute. reflexivity.
  - vm_compute. exact I.
Defined.

(** With MKLROOT given and MKL_INTERFACE_LAYER set to "ILP64,GNU". *)
Example setup_ilp64 :
  ∃ call ext,
    cythonize_request w_ilp64 fs_checkout = Some call ∧
    call_extensions call = [ext] ∧
    ext_define_macros ext = [("MKL_ILP64", None)] ∧
    call_compile_time_env call !! "MKL_INTERFACE_LAYER" = Some 1.
Proof. do 2 eexists. vm_compute. repeat split; reflexivity. Qed.

Lemma mkl_dir_root (w : World) : mkl_dir w = mkl_root w.
Proof. apply mkl_dir_first_set. Qed.

(** X13: search order.  When the leading MKL variable names a directory [d]
    and CONDA_PREFIX names a prefix [p], the include directories are numpy's,
    then [d/include], then [p/include], and the library directories are
    [d/lib/intel64], then [p/lib]; whatever HAVE_MKL ends up to be. *)
Theorem setup_search_order
    (w : World) (fs : filesystem) (cy : Cython) (n : Z) (d p : string) :
  cython w = Some cy ->
  optimize_level w = Some n ->
  int_readable w "HAVE_MKL" ->
  first_set (environ w) mkl_variables = Some d -> d ≠ "" ->
  environ w !! "CONDA_PREFIX" = Some p -> p ≠ "" ->
  ∃ call ext,
    cythonize_request w fs = Some call ∧
    call_extensions call = [ext] ∧
    ext_include_dirs ext =
      [numpy_include w; os_path_join d ["include"]; os_path_join p ["include"]] ∧
    ext_library_dirs ext =
      [os_path_join d ["lib"; "intel64"]; os_path_join p ["lib"]].
Proof.
  intros Hcy Hn Hmkl Hd Hdne Hp Hpne. destruct (have_mkl_readable w fs Hmkl) as [h Hh].
  exists (request_for w n h), (extension_for w h).
  split; [by apply (cythonize_request_run w fs cy)|].
  split; [reflexivity|].
  cbn [extension_for ext_include_dirs ext_library_dirs]. unfold search_dirs, conda_prefix.
  rewrite mkl_dir_root. unfold mkl_root. rewrite Hd, Hp. cbn [default from_option id].
  apply nonempty_true in Hdne. apply nonempty_true in Hpne.
  rewrite Hdne, Hpne. by split.
Qed.

Lemma setup_search_order_witness :
  ∃ call ext,
    cythonize_request w_mkl_and_conda fs_checkout = Some call ∧
    call_extensions call = [ext] ∧
    ext_include_dirs ext =
      [numpy_include w_mkl_and_conda; os_path_join "/opt/intel/mkl" ["include"];
       os_path_join "/opt/conda/" ["include"]] ∧
    ext_library_dirs ext =
      [os_path_join "/opt/intel/mkl" ["lib"; "intel64"]; os_path_join "/opt/conda/" ["lib"]].
Proof.
  apply (setup_search_order w_mkl_and_conda fs_checkout cython_3 1).
  - reflexivity.
  - vm_compute. reflexivity.
  - vm_compute. exact I.
  - vm_compute. reflexivity.
  - discriminate.
  - vm_compute. reflexivity.
  - discriminate.
Defined.

(** A prefix that ends in a separator is joined without a second one. *)
Example conda_prefix_with_trailing_slash :
  os_path_join "/opt/conda/" ["include"; "mkl.h"] = "/opt/conda/include/mkl.h" ∧
  os_path_join "/opt/conda" ["include"; "mkl.h"] = "/opt/conda/include/mkl.h".
Proof. split; reflexivity. Qed.

(** X14: with no MKL variable set, or the leading one empty, and
    CONDA_PREFIX unset or empty, the extension is built against numpy's
    include directory alone and with no library directory. *)
Theorem setup_plain_search_dirs (w : World) (fs : filesystem) (cy : Cython) (n : Z) :
  cython w = Some cy ->
  optimize_level w = Some n ->
  int_readable w "HAVE_MKL" ->
  mkl_root w = "" ->
  default "" (environ w !! "CONDA_PREFIX") = "" ->
  ∃ call ext,
    cythonize_request w fs = Some call ∧
    call_extensions call = [ext] ∧
    ext_include_dirs ext = [numpy_include w] ∧
    ext_library_dirs ext = [].
Proof.
  intros Hcy Hn Hmkl Hroot Hconda. destruct (have_mkl_readable w fs Hmkl) as [h Hh].
  exists (request_for w n h), (extension_for w h).
  split; [by apply (cythonize_request_run w fs cy)|].
  split; [reflexivity|].
  cbn [extension_for ext_include_dirs ext_library_dirs]. unfold search_dirs, conda_prefix.
  rewrite mkl_dir_root, Hroot.
  destruct (environ w !! "CONDA_PREFIX") as [p|]; cbn [default from_option id] in Hconda;
    [rewrite Hconda|]; by split.
Qed.

Lemma setup_plain_search_dirs_witness :
  ∃ call ext,
    cythonize_request w_plain fs_checkout = Some call ∧
    call_extensions call = [ext] ∧
    ext_include_dirs ext = [numpy_include w_plain] ∧
    ext_library_dirs ext = [].
Proof.
  apply (setup_plain_search_dirs w_plain fs_checkout cython_3 1).
  - reflexivity.
  - vm_compute. reflexivity.
  - vm_compute. exact I.
  - vm_compute. reflexivity.
  - vm_compute. reflexivity.
Defined.

(** ** The build: what it does not depend on *)

Section UnreadVariable.
Variables (w : World) (key : string) (v : option string).
Hypothesis Hkey : key ∉ setup_variables.
Let w' := with_environ key v w.

Lemma unread_lookup (k : string) :
  k ∈ setup_variables -> environ w' !! k = environ w !! k.
Proof.
  intros Hk. apply environ_with_environ_ne. intros ->. by apply Hkey.
Qed.

Lemma optimize_level_unread : optimize_level w' = optimize_level w.
Proof.
  unfold optimize_level, env_int.
  rewrite unread_lookup by (unfold setup_variables; set_solver). reflexivity.
Qed.

Lemma mkl_dir_unread : mkl_dir w' = mkl_dir w.
Proof.
  unfold mkl_dir. by rewrite !unread_lookup by (unfold setup_variables; set_solver).
Qed.

Lemma conda_prefix_unread : conda_prefix w' = conda_prefix w.
Proof.
  unfold conda_prefix. by rewrite unread_lookup by (unfold setup_variables; set_solver).
Qed.

Lemma ilp64_unread : ilp64 w' = ilp64 w.
Proof.
  unfold ilp64. by rewrite unread_lookup by (unfold setup_variables; set_solver).
Qed.

Lemma have_mkl_unread fs : have_mkl w' fs = have_mkl w fs.
Proof.
  unfold have_mkl, detected_mkl, env_int.
  rewrite mkl_dir_unread, conda_prefix_unread.
  rewrite unread_lookup by (unfold setup_variables; set_solver). reflexivity.
Qed.

Lemma request_for_unread n h : request_for w' n h = request_for w n h.
Proof.
  unfold request_for, extension_for, compile_time_env_for, search_dirs.
  by rewrite mkl_dir_unread, conda_prefix_unread, ilp64_unread.
Qed.

Lemma mkl_report_unread h : mkl_report w' h = mkl_report w h.
Proof. unfold mkl_report. by rewrite ilp64_unread. Qed.
End UnreadVariable.

(** X15: [setup_cython_extension] reads seven environment variables and no
    other: setting, changing or unsetting any other variable leaves what it
    prints and the call it makes to [cythonize] as they were.  (What
    [cythonize] then answers is Cython's own matter and is not compared.) *)
Theorem setup_ignores_other_variables
    (w : World) (fs : filesystem) (key : string) (v : option string) :
  key ∉ setup_variables ->
  events (setup_cython_extension (with_environ key v w) fs) =
  events (setup_cython_extension w fs).
Proof.
  intros Hkey. rewrite !setup_cython_extension_events_closed.
  change (cython (with_environ key v w)) with (cython w).
  rewrite (optimize_level_unread w key v Hkey), (have_mkl_unread w key v Hkey).
  destruct (cython w) as [cy|]; [|reflexivity].
  destruct (optimize_level w) as [n|]; [|reflexivity].
  destruct (have_mkl w fs) as [h|]; [|reflexivity].
  by rewrite (request_for_unread w key v Hkey), (mkl_report_unread w key v Hkey).
Qed.

Lemma setup_ignores_other_variables_witness :
  events (setup_cython_extension (with_environ "CFLAGS" (Some "-O3") w_mklroot) fs_checkout) =
  events (setup_cython_extension w_mklroot fs_checkout).
Proof.
  apply (setup_ignores_other_variables w_mklroot fs_checkout "CFLAGS" (Some "-O3")).
  vm_compute. intros H. repeat (apply elem_of_cons in H as [H|H]; [discriminate H|]).
  by apply elem_of_nil in H.
Defined.

Lemma detected_mkl_header (w : World) (fs : filesystem) :
  detected_mkl w fs =
  if nonempty (mkl_dir w) then 1
  else match conda_prefix w with
       | Some _ => Z.b2z (conda_mkl_header w fs)
       | None => 0
       end.
Proof.
  unfold detected_mkl, conda_prefix, conda_mkl_header.
  destruct (nonempty (mkl_dir w)); [reflexivity|].
  destruct (environ w !! "CONDA_PREFIX") as [p|]; [|reflexivity].
  by destruct (nonempty p).
Qed.

(** X16: the one thing [setup_cython_extension] asks the file system is
    whether [mkl.h] exists in the [include] directory of CONDA_PREFIX: on two
    file systems that agree on this, it prints the same lines and makes the
    same call to [cythonize]. *)
Theorem setup_consults_only_mkl_header (w : World) (fs1 fs2 : filesystem) :
  conda_mkl_header w fs1 = conda_mkl_header w fs2 ->
  events (setup_cython_extension w fs1) = events (setup_cython_extension w fs2).
Proof.
  intros Hsame. rewrite !setup_cython_extension_events_closed.
  assert (have_mkl w fs1 = have_mkl w fs2) as ->; [|reflexivity].
  unfold have_mkl. by rewrite !detected_mkl_header, Hsame.
Qed.

Lemma setup_consults_only_mkl_header_witness :
  events (setup_cython_extension w_conda fs_checkout) =
  events (setup_cython_extension w_conda ∅).
Proof.
  apply (setup_consults_only_mkl_header w_conda fs_checkout ∅).
  vm_compute. reflexivity.
Defined.

(** The header makes the difference: the same world, with and without
    [/opt/conda/include/mkl.h]. *)
Example conda_header_decides :
  (∃ call, cythonize_request w_conda fs_conda_mkl = Some call ∧
           call_compile_time_env call !! "HAVE_MKL" = Some 1) ∧
  (∃ call, cythonize_request w_conda fs_checkout = Some call ∧
           call_compile_time_env call !! "HAVE_MKL" = Some 0).
Proof. split; eexists; vm_compute; split; reflexivity. Qed.

(** X17: when the leading MKL variable names a directory, or HAVE_MKL is
    set, the file system is not consulted at all: the printed lines and the
    call to [cythonize] are the same on every file system. *)
Theorem setup_skips_header_probe (w : World) (fs1 fs2 : filesystem) :
  leading_mkl_variable_given w ∨ is_Some (environ w !! "HAVE_MKL") ->
  events (setup_cython_extension w fs1) = events (setup_cython_extension w fs2).
Proof.
  intros Hgiven. rewrite !setup_cython_extension_events_closed.
  assert (have_mkl w fs1 = have_mkl w fs2) as ->; [|reflexivity].
  unfold have_mkl, env_int. destruct Hgiven as [Hdir|[s Hs]].
  - apply leading_mkl_variable_nonempty in Hdir.
    unfold detected_mkl. by rewrite Hdir.
  - by rewrite Hs.
Qed.

Lemma setup_skips_header_probe_witness :
  events (setup_cython_extension w_override fs_conda_mkl) =
  events (setup_cython_extension w_override ∅).
Proof.
  apply (setup_skips_header_probe w_override fs_conda_mkl ∅).
  right. vm_compute. eauto.
Defined.

Lemma cythonize_request_closed (w : World) (fs : filesystem) :
  cythonize_request w fs =
  match cython w, optimize_level w, have_mkl w fs with
  | Some _, Some n, Some h => Some (request_for w n h)
  | _, _, _ => None
  end.
Proof.
  unfold cythonize_request. rewrite setup_cython_extension_events_closed.
  destruct (cython w) as [cy|]; [|reflexivity].
  destruct (optimize_level w) as [n|]; [|reflexivity].
  destruct (have_mkl w fs) as [h|]; [|reflexivity].
  unfold cythonize_calls. rewrite omap_app. fold (cythonize_calls (mkl_report w h)).
  by rewrite cythonize_calls_report.
Qed.

(** X18: MKL_INTERFACE_LAYER matters only with MKL.  When a run calls
    [cythonize] with HAVE_MKL = 0, setting, changing or unsetting
    MKL_INTERFACE_LAYER leaves the whole run as it was. *)
Theorem setup_layer_unused_without_mkl
    (w : World) (fs : filesystem) (call : cythonize_call) (v : option string) :
  cythonize_request w fs = Some call ->
  call_compile_time_env call !! "HAVE_MKL" = Some 0 ->
  setup_cython_extension (with_environ "MKL_INTERFACE_LAYER" v w) fs =
  setup_cython_extension w fs.
Proof.
  intros Hcall Hzero. rewrite cythonize_request_closed in Hcall.
  rewrite !setup_cython_extension_closed.
  change (cython (with_environ "MKL_INTERFACE_LAYER" v w)) with (cython w).
  set (w' := with_environ "MKL_INTERFACE_LAYER" v w).
  assert (optimize_level w' = optimize_level w) as ->.
  { unfold optimize_level, env_int, w'. by rewrite environ_with_environ_ne. }
  assert (mkl_dir w' = mkl_dir w) as Hdir.
  { unfold mkl_dir, w'. by rewrite !environ_with_environ_ne. }
  assert (conda_prefix w' = conda_prefix w) as Hconda.
  { unfold conda_prefix, w'. by rewrite environ_with_environ_ne. }
  assert (have_mkl w' fs = have_mkl w fs) as ->.
  { unfold have_mkl, detected_mkl, env_int. rewrite Hdir, Hconda.
    unfold w'. by rewrite environ_with_environ_ne. }
  destruct (cython w) as [cy|]; [|done].
  destruct (optimize_level w) as [n|]; [|done].
  destruct (have_mkl w fs) as [h|]; [|done].
  injection Hcall as <-. cbn [request_for call_compile_time_env] in Hzero.
  rewrite compile_time_env_for_have_mkl in Hzero. injection Hzero as ->.
  unfold mkl_report, request_for, extension_for, compile_time_env_for, search_dirs.
  cbn [Z.eqb negb andb]. by rewrite Hdir, Hconda.
Qed.

Lemma setup_layer_unused_without_mkl_witness :
  setup_cython_extension (with_environ "MKL_INTERFACE_LAYER" (Some "ILP64") w_plain) fs_checkout =
  setup_cython_extension w_plain fs_checkout.
Proof.
  apply (setup_layer_unused_without_mkl w_plain fs_checkout
           (request_for w_plain 1 0) (Some "ILP64")).
  - vm_compute. reflexivity.
  - vm_compute. reflexivity.
Defined.

(** ** The build: the directives at every level *)

Lemma directives_for_baseline (n : Z) :
  directives_for n !! "language_level" = Some (VInt 3) ∧
  directives_for n !! "embedsignature" = Some (VBool true).
Proof. unfold directives_for. by destruct (1 <? n), (n <? 1). Qed.

(** X19: at every level the directives handed to [cythonize] contain
    [language_level = 3] and [embedsignature = True]. *)
Theorem setup_baseline_directives_at_every_level
    (w : World) (fs : filesystem) (call : cythonize_call) :
  cythonize_request w fs = Some call ->
  call_compiler_directives call !! "language_level" = Some (VInt 3) ∧
  call_compiler_directives call !! "embedsignature" = Some (VBool true).
Proof.
  rewrite cythonize_request_closed.
  destruct (cython w), (optimize_level w) as [n|], (have_mkl w fs); try done.
  intros [= <-]. apply directives_for_baseline.
Qed.

Lemma setup_baseline_directives_at_every_level_witness :
  call_compiler_directives (request_for (w_level "2") 2 0) !! "language_level" =
    Some (VInt 3) ∧
  call_compiler_directives (request_for (w_level "2") 2 0) !! "embedsignature" =
    Some (VBool true).
Proof.
  apply (setup_baseline_directives_at_every_level (w_level "2") fs_checkout).
  vm_compute. reflexivity.
Defined.

(** X20: no level gives both: a call to [cythonize] never carries the
    unchecked directives ([boundscheck], [initializedcheck]) together with
    the profiling ones ([profile], [linetrace]). *)
Theorem setup_unchecked_excludes_profiling
    (w : World) (fs : filesystem) (call : cythonize_call) (unchecked profiling : string) :
  cythonize_request w fs = Some call ->
  unchecked ∈ ["boundscheck"; "initializedcheck"] ->
  profiling ∈ ["profile"; "linetrace"] ->
  call_compiler_directives call !! unchecked = None ∨
  call_compiler_directives call !! profiling = None.
Proof.
  rewrite cythonize_request_closed.
  destruct (cython w), (optimize_level w) as [n|], (have_mkl w fs); try done.
  intros [= <-] Hu Hp. cbn [request_for call_compiler_directives].
  destruct (directives_for_bounds n) as [Hb Hi].
  destruct (directives_for_profile n) as [Hpr Hl].
  destruct (1 <? n) eqn:Hhigh.
  - right. replace (n <? 1) with false in * by lia.
    apply elem_of_cons in Hp as [->|Hp]; [done|].
    apply list_elem_of_singleton in Hp as ->. done.
  - left. apply elem_of_cons in Hu as [->|Hu]; [done|].
    apply list_elem_of_singleton in Hu as ->. done.
Qed.

Lemma setup_unchecked_excludes_profiling_witness :
  call_compiler_directives (request_for (w_level "0") 0 0) !! "boundscheck" = None ∨
  call_compiler_directives (request_for (w_level "0") 0 0) !! "profile" = None.
Proof.
  apply (setup_unchecked_excludes_profiling (w_level "0") fs_checkout).
  - vm_compute. reflexivity.
  - vm_compute. apply elem_of_cons; by left.
  - vm_compute. apply elem_of_cons; by left.
Defined.
